(** * The MCP server template: configuration, HTTP client wrapper, tools

    A shallow embedding of [config.py], [api_service.py] and [main.py].
    Python values returned by the JSON decoder are an inductive type,
    dictionaries are association lists in insertion order, exceptions are
    an error monad layered over explicit state (state survives a raise, as
    it does in Python), and the [httpx] objects the code talks to are
    modelled by the interface the code uses: constructing a pooled client,
    sending a request through it, closing it, and reading the status, the
    text and the decoded JSON body of a response.

    The coroutines are run sequentially: every [await] is a plain call. *)

From Stdlib Require Import ZArith String Ascii DecimalString Lia.
From Stdlib Require Import DecimalPos DecimalZ.
From stdpp Require Import base option list strings gmap.

Local Open Scope Z_scope.

(** ** Python strings

    [str] is modelled by [string], a text outside ASCII by the bytes of its
    UTF-8 encoding. [lower] and [strip] act on the ASCII range and leave
    other bytes as they are: they are [str.lower] and [str.strip] on ASCII
    text, and only there, since Python also folds the cased letters and
    strips the white space beyond ASCII. A theorem whose conclusion depends
    on a name compared letter case aside, or on a stripped description, is
    stated for ASCII text. *)

Module Py.

Definition ascii_lower (c : ascii) : ascii :=
  let n := nat_of_ascii c in
  if ((65 <=? n) && (n <=? 90))%nat then ascii_of_nat (n + 32) else c.

Fixpoint lower (s : string) : string :=
  match s with
  | EmptyString => EmptyString
  | String c r => String (ascii_lower c) (lower r)
  end.

(** [str.isspace] on one ASCII character: tab to carriage return, the four
    separators 0x1c to 0x1f, and the space. *)
Definition is_space (c : ascii) : bool :=
  let n := nat_of_ascii c in
  (((9 <=? n) && (n <=? 13)) || ((28 <=? n) && (n <=? 32)))%nat.

Fixpoint lstrip_with (p : ascii -> bool) (s : string) : string :=
  match s with
  | EmptyString => EmptyString
  | String c r => if p c then lstrip_with p r else s
  end.

Fixpoint rstrip_with (p : ascii -> bool) (s : string) : string :=
  match s with
  | EmptyString => EmptyString
  | String c r =>
      match rstrip_with p r with
      | EmptyString => if p c then EmptyString else String c EmptyString
      | r' => String c r'
      end
  end.

(** [s.strip()] *)
Definition strip (s : string) : string :=
  rstrip_with is_space (lstrip_with is_space s).

(** [s.lstrip('/')] *)
Definition lstrip_slash (s : string) : string :=
  lstrip_with (Ascii.eqb "/"%char) s.

(** [str(n)] for an [int] *)
Definition str_of_int (z : Z) : string :=
  NilZero.string_of_int (Z.to_int z).

(** [sub in s] *)
Definition contains (sub s : string) : Prop :=
  exists pre post : string, s = pre +:+ sub +:+ post.

(** ** Python values, as [json.loads] produces them

    A [float] is carried by its [repr]: the code never computes with one,
    it only tests its truth value, formats it and passes it on. *)

#[warnings="-register-all"]
Inductive value : Type :=
| VNone
| VBool (b : bool)
| VInt (z : Z)
| VFloat (repr : string)
| VStr (s : string)
| VList (l : list value)
| VDict (d : list (string * value)).

Definition dict : Type := list (string * value).

Definition type_name (v : value) : string :=
  match v with
  | VNone => "NoneType"
  | VBool _ => "bool"
  | VInt _ => "int"
  | VFloat _ => "float"
  | VStr _ => "str"
  | VList _ => "list"
  | VDict _ => "dict"
  end.

(** [bool(v)] *)
Definition truthy (v : value) : bool :=
  match v with
  | VNone => false
  | VBool b => b
  | VInt z => negb (z =? 0)
  | VFloat r => negb (String.eqb r "0.0" || String.eqb r "-0.0")
  | VStr s => negb (String.eqb s EmptyString)
  | VList l => match l with [] => false | _ => true end
  | VDict d => match d with [] => false | _ => true end
  end.

(** [d.get(k)], as an option *)
Fixpoint dict_lookup (k : string) (d : dict) : option value :=
  match d with
  | [] => None
  | (k', v) :: rest => if String.eqb k k' then Some v else dict_lookup k rest
  end.

(** [d[k] = v]: an existing key keeps its place, a new one goes last. *)
Fixpoint dict_set (k : string) (v : value) (d : dict) : dict :=
  match d with
  | [] => [(k, v)]
  | (k', v') :: rest =>
      if String.eqb k k' then (k, v) :: rest else (k', v') :: dict_set k v rest
  end.

(** *** [repr] and [str] *)

Definition hex_digit (n : nat) : ascii :=
  if (n <? 10)%nat then ascii_of_nat (48 + n) else ascii_of_nat (87 + n).

Definition dquote : ascii := ascii_of_nat 34.
Definition squote : ascii := ascii_of_nat 39.
Definition backslash : ascii := ascii_of_nat 92.

Fixpoint has_char (c : ascii) (s : string) : bool :=
  match s with
  | EmptyString => false
  | String c' r => Ascii.eqb c c' || has_char c r
  end.

Definition escape_char (quote c : ascii) : string :=
  let n := nat_of_ascii c in
  if Ascii.eqb c quote || Ascii.eqb c backslash
  then String backslash (String c EmptyString)
  else if (n =? 9)%nat then String backslash "t"
  else if (n =? 10)%nat then String backslash "n"
  else if (n =? 13)%nat then String backslash "r"
  else if ((n <? 32) || (n =? 127))%nat
  then String backslash
         (String "x" (String (hex_digit (n / 16)) (String (hex_digit (n mod 16)) EmptyString)))
  else String c EmptyString.

Fixpoint escape (quote : ascii) (s : string) : string :=
  match s with
  | EmptyString => EmptyString
  | String c r => escape_char quote c +:+ escape quote r
  end.

(** [repr(s)] for a [str]: single quotes, unless the text has a single
    quote and no double quote. *)
Definition repr_str (s : string) : string :=
  let quote := if has_char squote s && negb (has_char dquote s) then dquote else squote in
  String quote (escape quote s +:+ String quote EmptyString).

Fixpoint join (sep : string) (l : list string) : string :=
  match l with
  | [] => EmptyString
  | [x] => x
  | x :: rest => x +:+ sep +:+ join sep rest
  end.

Fixpoint repr (v : value) : string :=
  match v with
  | VNone => "None"
  | VBool true => "True"
  | VBool false => "False"
  | VInt z => str_of_int z
  | VFloat r => r
  | VStr s => repr_str s
  | VList l => "[" +:+ join ", " (map repr l) +:+ "]"
  | VDict d =>
      "{" +:+ join ", " (map (fun kv => repr_str (fst kv) +:+ ": " +:+ repr (snd kv)) d) +:+ "}"
  end.

(** [str(v)], which an f-string field applies *)
Definition str (v : value) : string :=
  match v with
  | VStr s => s
  | _ => repr v
  end.

End Py.

Import Py.

(** ** The [httpx] interface

    A request as the wrapper hands it to the pooled client, a response as
    the wrapper reads it, and the pooled client object itself. Decoding
    the body is part of the response: [json_body] is the decoded value, or
    the decoder's message when the body is not JSON. *)

Record Request : Type := {
  req_method : string;
  req_url : string;
  req_params : dict
}.

Record Response : Type := {
  status_code : Z;
  text : string;
  json_body : string + value
}.

(** [httpx.AsyncClient(timeout=..., limits=httpx.Limits(...), headers=...)];
    [handle_id] is the identity of the object. *)
Record AsyncClient : Type := {
  handle_id : nat;
  timeout : Z;
  max_connections : Z;
  max_keepalive_connections : Z;
  headers : list (string * string)
}.

(** What lies below the wrapper: how many pooled clients were constructed,
    which were closed, the requests issued so far (oldest first), and the
    upstream service, which answers a request, given the earlier ones,
    with a transport failure (left) or a response (right). *)
Record Net : Type := {
  constructed : nat;
  released : list nat;
  outbox : list Request;
  upstream : list Request -> Request -> string + Response
}.

(** ** Exceptions *)

Inductive exn : Type :=
| ValueError (msg : string)
| AttributeError (msg : string)
| TypeError (msg : string)
| RuntimeError (msg : string)
| JSONDecodeError (msg : string)
| HTTPStatusError (msg : string) (response : Response)
| RequestError (msg : string)
| APIError (msg : string).

(** [str(e)] *)
Definition str_exn (e : exn) : string :=
  match e with
  | ValueError m | AttributeError m | TypeError m | RuntimeError m
  | JSONDecodeError m | HTTPStatusError m _ | RequestError m | APIError m => m
  end.

Inductive outcome (A : Type) : Type :=
| Return (a : A)
| Raise (e : exn).
Arguments Return {A} a.
Arguments Raise {A} e.

#[global] Instance outcome_ret : MRet outcome := fun A a => Return a.
#[global] Instance outcome_bind : MBind outcome := fun A B f m =>
  match m with
  | Return a => f a
  | Raise e => Raise e
  end.

(** A computation over state [S]; the state is kept when it raises. *)
Definition M (S A : Type) : Type := S -> outcome A * S.

#[global] Instance M_ret {S} : MRet (M S) := fun A a s => (Return a, s).
#[global] Instance M_bind {S} : MBind (M S) := fun A B f m s =>
  match m s with
  | (Return a, s') => f a s'
  | (Raise e, s') => (Raise e, s')
  end.

Definition raise {S A} (e : exn) : M S A := fun s => (Raise e, s).
Definition lift {S A} (o : outcome A) : M S A := fun s => (o, s).
Definition get_state {S} : M S S := fun s => (Return s, s).

(** [try: body except ...:] where [handler e] is [None] when no clause
    matches [e], which then propagates. *)
Definition try_except {S A} (body : M S A) (handler : exn -> option (M S A)) : M S A :=
  fun s =>
    match body s with
    | (Return a, s') => (Return a, s')
    | (Raise e, s') =>
        match handler e with
        | Some h => h s'
        | None => (Raise e, s')
        end
    end.

(** ** Operations on values that can raise *)

Definition no_attribute (v : value) (attr : string) : exn :=
  AttributeError ("'" +:+ type_name v +:+ "' object has no attribute '" +:+ attr +:+ "'").

(** [v.get(k)] *)
Definition py_get (v : value) (k : string) : outcome value :=
  match v with
  | VDict d => Return (default VNone (dict_lookup k d))
  | _ => Raise (no_attribute v "get")
  end.

(** [v.get(k, dflt)] *)
Definition py_get_default (v : value) (k : string) (dflt : value) : outcome value :=
  match v with
  | VDict d => Return (default dflt (dict_lookup k d))
  | _ => Raise (no_attribute v "get")
  end.

(** [v.strip()] *)
Definition py_strip (v : value) : outcome value :=
  match v with
  | VStr s => Return (VStr (strip s))
  | _ => Raise (no_attribute v "strip")
  end.

(** [v.lower()] *)
Definition py_lower (v : value) : outcome string :=
  match v with
  | VStr s => Return (lower s)
  | _ => Raise (no_attribute v "lower")
  end.

Fixpoint chars (s : string) : list value :=
  match s with
  | EmptyString => []
  | String c r => VStr (String c EmptyString) :: chars r
  end.

(** The elements a [for] loop over [v] visits. *)
Definition py_iter (v : value) : outcome (list value) :=
  match v with
  | VList l => Return l
  | VDict d => Return (map (fun kv => VStr (fst kv)) d)
  | VStr s => Return (chars s)
  | _ => Raise (TypeError ("'" +:+ type_name v +:+ "' object is not iterable"))
  end.

(** [a or b], with [b] evaluated only when [a] is false *)
Definition py_or (a : value) (b : outcome value) : outcome value :=
  if truthy a then Return a else b.

(** [acc = []; for x in l: acc.append(f(x))] *)
Fixpoint for_each {A} (f : value -> outcome A) (l : list value) : outcome (list A) :=
  match l with
  | [] => Return []
  | x :: rest =>
      match f x with
      | Return a =>
          match for_each f rest with
          | Return acc => Return (a :: acc)
          | Raise e => Raise e
          end
      | Raise e => Raise e
      end
  end.

(** *** The pooled client, as the wrapper uses it *)

Module httpx.

(** [httpx.AsyncClient(...)]: a new object, with the next free identity.
    The constructor is taken to succeed; the proxy and certificate
    variables the library reads from the process environment are not part
    of the model. *)
Definition AsyncClient_new (tmo max_conn max_keepalive : Z)
    (hdrs : list (string * string)) : M Net AsyncClient :=
  fun net =>
    (Return {| handle_id := constructed net; timeout := tmo;
               max_connections := max_conn;
               max_keepalive_connections := max_keepalive; headers := hdrs |},
     {| constructed := S (constructed net); released := released net;
        outbox := outbox net; upstream := upstream net |}).

(** [await client.aclose()]; closing a closed client changes nothing. *)
Definition aclose (client : AsyncClient) : M Net unit :=
  fun net =>
    (Return tt,
     if bool_decide (handle_id client ∈ released net) then net
     else {| constructed := constructed net;
             released := handle_id client :: released net;
             outbox := outbox net; upstream := upstream net |}).

(** [await client.request(method, url, params=params)]: a closed client
    refuses to send; otherwise the request goes out and upstream answers
    with a response or with a transport failure. The URL is taken to be
    one the library accepts: it refuses some, a URL with a control
    character among them, with an error that is not a [RequestError] and
    before anything is sent, which is not part of the model. [plain_url]
    below describes URLs that are not refused. *)
Definition request (client : AsyncClient) (method url : string) (params : dict)
    : M Net Response :=
  fun net =>
    if bool_decide (handle_id client ∈ released net)
    then (Raise (RuntimeError "Cannot send a request, as the client has been closed."), net)
    else
      let req := {| req_method := method; req_url := url; req_params := params |} in
      let net' := {| constructed := constructed net; released := released net;
                     outbox := outbox net ++ [req]; upstream := upstream net |} in
      match upstream net (outbox net) req with
      | inl msg => (Raise (RequestError msg), net')
      | inr response => (Return response, net')
      end.

(** [response.raise_for_status()]: every status outside 200..299 raises.
    The text of the exception stands for the one [httpx] composes; the
    program never reads it, its one handler reads the response. *)
Definition raise_for_status (response : Response) : outcome unit :=
  if (200 <=? status_code response) && (status_code response <=? 299)
  then Return tt
  else Raise (HTTPStatusError
                ("HTTP status " +:+ str_of_int (status_code response)) response).

(** [response.json()] *)
Definition json (response : Response) : outcome value :=
  match json_body response with
  | inr v => Return v
  | inl msg => Raise (JSONDecodeError msg)
  end.

End httpx.

(** ** config.py

    [environ] is the process environment after [load_dotenv()]. Only the
    two settings the client reads are modelled; [api_timeout],
    [max_results] and [cache_ttl] are read nowhere in the program. *)

Module Settings.

Definition api_base_url (environ : gmap string string) : string :=
  default "https://api.example.com/v1" (environ !! "API_BASE_URL").

Definition api_key_required : string :=
  "API_KEY environment variable is required. " +:+
  "Get your API key from [YOUR_API_PROVIDER] and add it to your .env file.".

Definition api_key (environ : gmap string string) : outcome string :=
  match environ !! "API_KEY" with
  | Some key =>
      if String.eqb key EmptyString then Raise (ValueError api_key_required)
      else Return key
  | None => Raise (ValueError api_key_required)
  end.

End Settings.

(** ** api_service.py *)

Record APIClient : Type := {
  base_url : string;
  api_key : string;
  _client : option AsyncClient
}.

(** A method of [APIClient] runs on the instance and on the network. *)
Abbreviation Method := (M (APIClient * Net)).

Module APIClient.

Definition get_self : Method APIClient := fun st => (Return (fst st), st).

(** [self._client = h] *)
Definition set__client (h : option AsyncClient) : Method unit :=
  fun st =>
    (Return tt,
     ({| base_url := base_url (fst st); api_key := api_key (fst st); _client := h |},
      snd st)).

Definition on_net {A} (m : M Net A) : Method A :=
  fun st => let (r, net') := m (snd st) in (r, (fst st, net')).

(** [APIClient()] reads both settings from the environment. *)
Definition __init__ (environ : gmap string string) : outcome APIClient :=
  let url := Settings.api_base_url environ in
  key ← Settings.api_key environ;
  mret {| base_url := url; api_key := key; _client := None |}.

Definition get_client : Method AsyncClient :=
  self ← get_self;
  match _client self with
  | None =>
      h ← on_net (httpx.AsyncClient_new 30 10 5 [("User-Agent", "Your MCP Server/1.0.0")]);
      set__client (Some h);;
      mret h
  | Some h => mret h
  end.

Definition close : Method unit :=
  self ← get_self;
  match _client self with
  | Some h => on_net (httpx.aclose h);; set__client None
  | None => mret tt
  end.

(** The request [_make_request] builds for the instance [self]. *)
Definition outgoing (self : APIClient) (method endpoint : string)
    (params : option dict) : Request :=
  {| req_method := method;
     req_url := base_url self +:+ "/" +:+ lstrip_slash endpoint;
     req_params := dict_set "api_key" (VStr (api_key self)) (default [] params) |}.

Definition _make_request (method endpoint : string) (params : option dict)
    : Method value :=
  client ← get_client;
  self ← get_self;
  let req := outgoing self method endpoint params in
  try_except
    (response ← on_net (httpx.request client (req_method req) (req_url req) (req_params req));
     lift (httpx.raise_for_status response);;
     lift (httpx.json response))
    (fun e =>
       match e with
       | HTTPStatusError _ response =>
           Some
             (if status_code response =? 404
              then raise (APIError ("Not found: " +:+ endpoint))
              else if status_code response =? 401
              then raise (APIError "Invalid API key or authentication failed")
              else if status_code response =? 429
              then raise (APIError "Rate limit exceeded - try again later")
              else raise (APIError ("API error " +:+ str_of_int (status_code response)
                                    +:+ ": " +:+ text response)))
       | RequestError _ => Some (raise (APIError ("Request failed: " +:+ str_exn e)))
       | _ => None
       end).

Definition search (query : string) (limit : Z) : Method value :=
  let params := [("q", VStr query); ("limit", VInt (Z.min limit 50))] in
  _make_request "GET" "/search" (Some params).

Definition get_details (item_id : string) : Method value :=
  _make_request "GET" ("/items/" +:+ item_id) None.

Definition list_categories : Method value :=
  _make_request "GET" "/categories" None.

Definition get_popular_items (limit : Z) : Method value :=
  let params := [("limit", VInt (Z.min limit 50))] in
  _make_request "GET" "/popular" (Some params).

Definition get_items_by_category (category_id : value) (limit : Z) : Method value :=
  let params := [("limit", VInt (Z.min limit 50))] in
  _make_request "GET" ("/categories/" +:+ str category_id +:+ "/items") (Some params).

End APIClient.

(** *** The shared instance

    The module global [_client] is the one cell that can hold an
    [APIClient]; [get_api_client] hands out a reference to what the cell
    holds, so a method called through that reference works on the cell
    ([invoke]), and what one call stores in the instance the next call
    finds there. *)

Record World : Type := {
  environ : gmap string string;
  global_client : option APIClient;
  network : Net;
  log : list string
}.

Inductive client_ref : Type := TheClient.

Definition set_global_client (c : option APIClient) : M World unit :=
  fun w =>
    (Return tt,
     {| environ := environ w; global_client := c; network := network w; log := log w |}).

(** [await client.method(...)] on the shared instance. The last case does
    not arise: a reference is handed out only while the cell is full. *)
Definition invoke {A} (client : client_ref) (m : Method A) : M World A :=
  fun w =>
    match global_client w with
    | Some self =>
        let (r, st) := m (self, network w) in
        (r, {| environ := environ w; global_client := Some (fst st);
               network := snd st; log := log w |})
    | None => (Raise (RuntimeError "no client instance"), w)
    end.

Definition get_api_client : M World client_ref :=
  w ← get_state;
  match global_client w with
  | None =>
      c ← lift (APIClient.__init__ (environ w));
      set_global_client (Some c);;
      mret TheClient
  | Some _ => mret TheClient
  end.

Definition cleanup_api_client : M World unit :=
  w ← get_state;
  match global_client w with
  | Some _ => invoke TheClient APIClient.close;; set_global_client None
  | None => mret tt
  end.

(** ** main.py *)

(** [logger.error(msg)] *)
Definition logger_error (msg : string) : M World unit :=
  fun w =>
    (Return tt,
     {| environ := environ w; global_client := global_client w;
        network := network w; log := log w ++ [msg] |}).

(** [except Exception as e:] at the end of each tool: log, then return the
    sentinel built from the message. *)
Definition except_Exception (prefix_log prefix_out : string) (wrap : value -> value)
    : exn -> option (M World value) :=
  fun e =>
    Some (logger_error (prefix_log +:+ str_exn e);;
          mret (wrap (VDict [("error", VStr (prefix_out +:+ str_exn e))]))).

Definition in_list (v : value) : value := VList [v].

(** [result.get("results", [])], as the list the loop goes through *)
Definition results_of (result : value) : outcome (list value) :=
  r ← py_get_default result "results" (VList []);
  py_iter r.

Definition search_item_info (item : value) : outcome value :=
  id ← py_get item "id";
  title ← (t ← py_get item "title"; py_or t (py_get item "name"));
  description ← (d ← py_get_default item "description" (VStr EmptyString); py_strip d);
  url ← py_get item "url";
  tags ← py_get_default item "tags" (VList []);
  mret (VDict [("id", id); ("title", title); ("description", description);
               ("url", url); ("tags", tags)]).

(** The [try] block of [search_items], then the tool. *)
Definition search_items_try (query : string) (limit : Z) : M World value :=
  client ← get_api_client;
  result ← invoke client (APIClient.search query limit);
  items ← lift (l ← results_of result; for_each search_item_info l);
  mret (VList items).

Definition search_items (query : string) (limit : Z) : M World value :=
  try_except (search_items_try query limit)
    (except_Exception "Search failed: " "Search failed: " in_list).

Definition item_details (item : value) : outcome value :=
  id ← py_get item "id";
  title ← (t ← py_get item "title"; py_or t (py_get item "name"));
  description ← (d ← py_get_default item "description" (VStr EmptyString); py_strip d);
  full_description ←
    (d ← py_get_default item "full_description" (VStr EmptyString); py_strip d);
  url ← py_get item "url";
  created_date ← (t ← py_get item "created_at"; py_or t (py_get item "date"));
  author ← (t ← py_get item "author"; py_or t (py_get item "creator"));
  tags ← py_get_default item "tags" (VList []);
  category ← py_get item "category";
  metadata ← py_get_default item "metadata" (VDict []);
  mret (VDict [("id", id); ("title", title); ("description", description);
               ("full_description", full_description); ("url", url);
               ("created_date", created_date); ("author", author); ("tags", tags);
               ("category", category); ("metadata", metadata)]).

Definition get_item_details_try (item_id : string) : M World value :=
  client ← get_api_client;
  item ← invoke client (APIClient.get_details item_id);
  lift (item_details item).

Definition get_item_details (item_id : string) : M World value :=
  try_except (get_item_details_try item_id)
    (except_Exception ("Failed to get details for " +:+ item_id +:+ ": ")
       "Failed to get item details: " id).

Definition category_info (category : value) : outcome value :=
  id ← py_get category "id";
  name ← py_get category "name";
  description ← py_get category "description";
  item_count ← (t ← py_get category "count"; py_or t (py_get category "items"));
  icon ← py_get category "icon";
  mret (VDict [("id", id); ("name", name); ("description", description);
               ("item_count", item_count); ("icon", icon)]).

Definition list_categories_try : M World value :=
  client ← get_api_client;
  result ← invoke client APIClient.list_categories;
  categories ← lift (l ← results_of result; for_each category_info l);
  mret (VList categories).

Definition list_categories : M World value :=
  try_except list_categories_try
    (except_Exception "Failed to list categories: " "Failed to list categories: " in_list).

(** The loop that looks the category up: [category_id] stays [None] until
    a name matches, and the loop stops at the first match. *)
Fixpoint find_category_id (category : string) (cats : list value) : outcome value :=
  match cats with
  | [] => Return VNone
  | cat :: rest =>
      match (n ← py_get_default cat "name" (VStr EmptyString); py_lower n) with
      | Return name =>
          if String.eqb name (lower category) then py_get cat "id"
          else find_category_id category rest
      | Raise e => Raise e
      end
  end.

Definition popular_item_info (item : value) : outcome value :=
  id ← py_get item "id";
  title ← (t ← py_get item "title"; py_or t (py_get item "name"));
  description ← (d ← py_get_default item "description" (VStr EmptyString); py_strip d);
  url ← py_get item "url";
  tags ← py_get_default item "tags" (VList []);
  popularity_score ← (t ← py_get item "score"; py_or t (py_get item "rating"));
  mret (VDict [("id", id); ("title", title); ("description", description);
               ("url", url); ("tags", tags); ("popularity_score", popularity_score)]).

(** [if category:] for an [Optional[str]] *)
Definition given (category : option string) : option string :=
  match category with
  | Some c => if String.eqb c EmptyString then None else Some c
  | None => None
  end.

(** The loop after the [if]/[else], shared by both ways of getting
    [result]. *)
Definition popular_items_of (result : value) : M World value :=
  items ← lift (l ← results_of result; for_each popular_item_info l);
  mret (VList items).

Definition get_popular_items_try (limit : Z) (category : option string)
    : M World value :=
  client ← get_api_client;
  match given category with
  | Some c =>
      categories_result ← invoke client APIClient.list_categories;
      category_id ← lift (l ← results_of categories_result; find_category_id c l);
      if truthy category_id
      then result ← invoke client (APIClient.get_items_by_category category_id limit);
           popular_items_of result
      else mret (VList [VDict [("error", VStr ("Category '" +:+ c +:+ "' not found"))]])
  | None =>
      result ← invoke client (APIClient.get_popular_items limit);
      popular_items_of result
  end.

Definition get_popular_items (limit : Z) (category : option string) : M World value :=
  try_except (get_popular_items_try limit category)
    (except_Exception "Failed to get popular items: " "Failed to get popular items: " in_list).

Definition cleanup : M World unit := cleanup_api_client.

(** ** Consistency of the pooled-client bookkeeping

    Identities are handed out in order, so every closed client has an
    identity below [constructed]; the client an instance holds has been
    constructed and not closed. *)

Definition net_ok (net : Net) : Prop :=
  Forall (fun i => (i < constructed net)%nat) (released net).

Definition holds_ok (self : APIClient) (net : Net) : Prop :=
  match _client self with
  | Some h => (handle_id h < constructed net)%nat /\ handle_id h ∉ released net
  | None => True
  end.

Definition consistent (self : APIClient) (net : Net) : Prop :=
  net_ok net /\ holds_ok self net.

Definition world_ok (w : World) : Prop :=
  net_ok (network w) /\
  match global_client w with
  | Some self => holds_ok self (network w)
  | None => True
  end.

(** The state a method leaves behind, and what it returned. *)
Definition self_after {A} (m : Method A) (self : APIClient) (net : Net) : APIClient :=
  fst (snd (m (self, net))).
Definition net_after {A} (m : Method A) (self : APIClient) (net : Net) : Net :=
  snd (snd (m (self, net))).
Definition result_of {A} (m : Method A) (self : APIClient) (net : Net) : outcome A :=
  fst (m (self, net)).

(** The network once [req] has gone out. *)
Definition sent (req : Request) (net : Net) : Net :=
  {| constructed := constructed net; released := released net;
     outbox := outbox net ++ [req]; upstream := upstream net |}.

(** The message of the domain error for a response that is not a success. *)
Definition status_message (endpoint : string) (response : Response) : string :=
  if status_code response =? 404 then "Not found: " +:+ endpoint
  else if status_code response =? 401 then "Invalid API key or authentication failed"
  else if status_code response =? 429 then "Rate limit exceeded - try again later"
  else "API error " +:+ str_of_int (status_code response) +:+ ": " +:+ text response.

(** What [_make_request] makes of upstream's answer; [make_request_run]
    below proves that the code computes this. *)
Definition reply (endpoint : string) (answer : string + Response) : outcome value :=
  match answer with
  | inl msg => Raise (APIError ("Request failed: " +:+ msg))
  | inr response =>
      if (200 <=? status_code response) && (status_code response <=? 299)
      then httpx.json response
      else Raise (APIError (status_message endpoint response))
  end.

(** The instance a tool works with: the stored one, or the one the first
    call constructs from the environment. *)
Definition instance_of (w : World) : outcome APIClient :=
  match global_client w with
  | Some self => Return self
  | None => APIClient.__init__ (environ w)
  end.

(** A request carries the values of the instance [self]: its URL starts
    with the base URL and its [api_key] parameter is the key. *)
Definition stamped (self : APIClient) (req : Request) : Prop :=
  (exists path, req_url req = base_url self +:+ "/" +:+ path) /\
  dict_lookup "api_key" (req_params req) = Some (VStr (api_key self)).

(** The stored instance has the settings of [self]. *)
Definition same_config (self : APIClient) (w : World) : Prop :=
  exists c, global_client w = Some c /\ base_url c = base_url self /\
            api_key c = api_key self.

(** The error sentinel of a tool. *)
Definition sentinel (msg : string) : value := VDict [("error", VStr msg)].

(** The requests issued since [before]. *)
Definition issued (before after : Net) : list Request :=
  drop (length (outbox before)) (outbox after).

(** The value of the [limit] query parameter of a request. *)
Definition limit_of (req : Request) : option value :=
  dict_lookup "limit" (req_params req).

(** Running [m] on [self] issues exactly one request, whose [limit] is [v]. *)
Definition sends_limit (m : Method value) (self : APIClient) (net : Net) (v : Z) : Prop :=
  exists req, issued net (net_after m self net) = [req] /\ limit_of req = Some (VInt v).

(** A tool contains the failures of its [try] block: it returns, and when
    the block raised [e] it returns the sentinel made from [e]. *)
Definition contains_failures (body tool : M World value) (wrap : value -> value)
    (prefix : string) (w : World) : Prop :=
  (exists v, fst (tool w) = Return v) /\
  match fst (body w) with
  | Return v => fst (tool w) = Return v
  | Raise e => fst (tool w) = Return (wrap (sentinel (prefix +:+ str_exn e)))
  end.

(** The world once the cell holds [self]. *)
Definition with_client (self : APIClient) (w : World) : World :=
  {| environ := environ w; global_client := Some self;
     network := network w; log := log w |}.

(** The world after a method ran on the stored instance [self]. *)
Definition after_method {A} (m : Method A) (self : APIClient) (w : World) : World :=
  {| environ := environ w; global_client := Some (self_after m self (network w));
     network := net_after m self (network w); log := log w |}.

(** Text of the ASCII range, on which [lower] is [str.lower] and [strip]
    is [str.strip]. *)
Definition is_ascii (c : ascii) : bool := (nat_of_ascii c <? 128)%nat.

Fixpoint all_chars (p : ascii -> bool) (s : string) : bool :=
  match s with
  | EmptyString => true
  | String c r => p c && all_chars p r
  end.

Definition ascii_only (s : string) : bool := all_chars is_ascii s.


(** Every category of the list is an object whose name, when it has one,
    is an ASCII string other than [category], letter case aside. *)
Definition names_differ (category : string) (cats : list value) : Prop :=
  Forall (fun cat => exists name,
            py_get_default cat "name" (VStr EmptyString) = Return (VStr name) /\
            ascii_only name = true /\
            lower name <> lower category) cats.

(** The sentinel for a category that is not in the listing. *)
Definition category_not_found (category : string) : value :=
  VList [VDict [("error", VStr ("Category '" +:+ category +:+ "' not found"))]].

(** The pooled client [get_client] hands to [_make_request] is closed. *)
Definition refused (self : APIClient) (net : Net) : bool :=
  match result_of APIClient.get_client self net with
  | Return h =>
      bool_decide (handle_id h ∈ released (net_after APIClient.get_client self net))
  | Raise _ => false
  end.

(** A method leaves the settings of its instance as they are, and the
    requests it issues carry them. *)
Definition method_keeps_settings {A} (m : Method A) : Prop :=
  forall self net,
    base_url (self_after m self net) = base_url self /\
    api_key (self_after m self net) = api_key self /\
    exists new, outbox (net_after m self net) = outbox net ++ new /\
                Forall (stamped self) new.

(** Run from [w], the computation leaves an instance with the settings of
    [self] and issues only requests that carry them. *)
Definition run_uses_settings {A} (self : APIClient) (m : M World A) (w : World) : Prop :=
  same_config self (snd (m w)) /\
  exists new, outbox (network (snd (m w))) = outbox (network w) ++ new /\
              Forall (stamped self) new.

Definition uses_settings_of {A} (self : APIClient) (m : M World A) : Prop :=
  forall w, same_config self w -> run_uses_settings self m w.

(** A method keeps the bookkeeping consistent. *)
Definition method_keeps_consistent {A} (m : Method A) : Prop :=
  forall self net,
    consistent self net -> consistent (self_after m self net) (net_after m self net).

(** A computation keeps the world consistent. *)
Definition keeps_world_ok {A} (m : M World A) : Prop :=
  forall w, world_ok w -> world_ok (snd (m w)).

(** The environment replaced as a whole. *)
Definition with_environ (env : gmap string string) (w : World) : World :=
  {| environ := env; global_client := global_client w;
     network := network w; log := log w |}.

(** ** Concrete worlds *)

Module Sample.

Definition ok_json (v : value) : string + Response :=
  inr {| status_code := 200; text := "{...}"; json_body := inr v |}.

Definition status (code : Z) (body : string) : string + Response :=
  inr {| status_code := code; text := body; json_body := inl "Expecting value: line 1 column 1 (char 0)" |}.

Definition net (up : list Request -> Request -> string + Response) : Net :=
  {| constructed := 0; released := []; outbox := []; upstream := up |}.

(** A process that has just started, with a key in its environment. *)
Definition fresh (up : list Request -> Request -> string + Response) : World :=
  {| environ := <["API_KEY" := "secret"]> ∅; global_client := None;
     network := net up; log := [] |}.

(** The same process without a key. *)
Definition keyless (up : list Request -> Request -> string + Response) : World :=
  {| environ := ∅; global_client := None; network := net up; log := [] |}.

Definition instance : APIClient :=
  {| base_url := "https://api.example.com/v1"; api_key := "secret"; _client := None |}.

Definition one_foo : value :=
  VDict [("results", VList [VDict [("id", VStr "1"); ("name", VStr "Foo")]])].

Definition foo_item : value :=
  VDict [("id", VStr "1"); ("title", VStr "Foo"); ("description", VStr EmptyString);
         ("url", VNone); ("tags", VList [])].

(** A category listing: one category, named Food. *)
Definition food_only : value :=
  VDict [("results", VList [VDict [("id", VStr "7"); ("name", VStr "Food")]])].

(** A category listing whose only category has a null name. *)
Definition null_name : value :=
  VDict [("results", VList [VDict [("id", VStr "7"); ("name", VNone)]])].

(** Upstream answers every request with the listing [null_name]. *)
Definition null_name_world : World := fresh (fun _ _ => ok_json null_name).

(** Upstream answers every request with the listing [food_only]. *)
Definition food_world : World := fresh (fun _ _ => ok_json food_only).

(** Upstream answers every request with [one_foo]. *)
Definition foo_world : World := fresh (fun _ _ => ok_json one_foo).

(** The environment after the key and the base URL were changed. *)
Definition changed_environ : gmap string string :=
  <["API_BASE_URL" := "https://elsewhere.example/v2"]> (<["API_KEY" := "other"]> ∅).

End Sample.

(** ** Further notions used to state what the code does *)

(** [n] slashes in front of [s]. *)
Fixpoint slashes (n : nat) (s : string) : string :=
  match n with
  | O => s
  | S n' => String "/"%char (slashes n' s)
  end.

(** The keys of an object, in order. *)
Definition keys_of (v : value) : list string :=
  match v with
  | VDict d => map fst d
  | _ => []
  end.

(** The value under [k] of an object, [None] when [v] is not an object or
    has no such key. *)
Definition field (k : string) (v : value) : option value :=
  match v with
  | VDict d => dict_lookup k d
  | _ => None
  end.

(** [v] is an object whose [k], when it has one, is a string. *)
Definition text_or_absent (k : string) (v : value) : bool :=
  match v with
  | VDict d =>
      match dict_lookup k d with
      | None | Some (VStr _) => true
      | Some _ => false
      end
  | _ => false
  end.

(** [v] is an object whose [k], when it has one, is an ASCII string. *)
Definition ascii_text_or_absent (k : string) (v : value) : bool :=
  match v with
  | VDict d =>
      match dict_lookup k d with
      | None => true
      | Some (VStr s) => ascii_only s
      | Some _ => false
      end
  | _ => false
  end.

Definition is_object (v : value) : bool :=
  match v with
  | VDict _ => true
  | _ => false
  end.

(** Requests that [httpx] does not refuse to build. The URL is made of
    printable ASCII characters, at most 65536 of them, with [http://] or
    [https://] first and then a host name that begins with a letter and is
    made of letters, digits, dots and hyphens, which ends the URL or is
    followed by a slash and anything. The parameters make a query string
    of at most 65536 characters, however they are escaped: an escaped
    character takes three, and [query_size] counts every one as
    escaped. *)
Definition is_printable (c : ascii) : bool :=
  let n := nat_of_ascii c in ((32 <=? n) && (n <=? 126))%nat.

Definition is_letter (c : ascii) : bool :=
  let n := nat_of_ascii c in
  (((65 <=? n) && (n <=? 90)) || ((97 <=? n) && (n <=? 122)))%nat.

Definition is_host_char (c : ascii) : bool :=
  let n := nat_of_ascii c in
  is_letter c || ((48 <=? n) && (n <=? 57))%nat || (n =? 45)%nat || (n =? 46)%nat.

Fixpoint strip_prefix (p s : string) : option string :=
  match p, s with
  | EmptyString, _ => Some s
  | String a p', String b s' => if Ascii.eqb a b then strip_prefix p' s' else None
  | String _ _, EmptyString => None
  end.

Definition after_scheme (url : string) : option string :=
  match strip_prefix "https://" url with
  | Some rest => Some rest
  | None => strip_prefix "http://" url
  end.

Fixpoint host_chars (s : string) : bool :=
  match s with
  | EmptyString => true
  | String c r => Ascii.eqb c "/" || (is_host_char c && host_chars r)
  end.

Definition plain_url (url : string) : bool :=
  all_chars is_printable url &&
  (Z.of_nat (String.length url) <=? 65536) &&
  match after_scheme url with
  | Some (String c r) => is_letter c && host_chars r
  | _ => false
  end.

Definition query_size (params : dict) : Z :=
  foldr (fun kv size =>
           3 * Z.of_nat (String.length (fst kv)) +
           3 * Z.of_nat (String.length (str (snd kv))) + 2 + size)
        0 params.

Definition sendable (req : Request) : bool :=
  plain_url (req_url req) && (query_size (req_params req) <=? 65536).

(** The first of two fields that is true, as [a.get(k1) or a.get(k2)]
    gives it for an object. *)
Definition first_true (k1 k2 : string) (v : value) : value :=
  let a := default VNone (field k1 v) in
  if truthy a then a else default VNone (field k2 v).

(** The pooled client the instance stored in the cell holds. *)
Definition pooled (w : World) : option AsyncClient :=
  match global_client w with
  | Some self => _client self
  | None => None
  end.

(** The variables behind [api_timeout], [max_results] and [cache_ttl] of
    config.py. *)
Definition unused_settings : list string := ["API_TIMEOUT"; "MAX_RESULTS"; "CACHE_TTL"].

(** Two worlds that differ at most in those three variables of their
    environments. *)
Definition same_but_unused_settings (w1 w2 : World) : Prop :=
  (forall name, name ∉ unused_settings -> environ w1 !! name = environ w2 !! name) /\
  global_client w1 = global_client w2 /\
  network w1 = network w2 /\
  log w1 = log w2.

(** A computation on which those three variables have no effect. *)
Definition ignores_unused_settings {A} (m : M World A) : Prop :=
  forall w1 w2, same_but_unused_settings w1 w2 ->
    fst (m w1) = fst (m w2) /\
    same_but_unused_settings (snd (m w1)) (snd (m w2)).

(** How a method treats the pool: it closes nothing, constructs at most
    one pooled client, none when the instance holds one, which it then
    keeps; and when it has constructed one the instance holds one. *)
Definition method_pool_discipline {A} (m : Method A) : Prop :=
  forall self net,
    let self' := self_after m self net in
    let net' := net_after m self net in
    released net' = released net /\
    (constructed net <= constructed net' <= S (constructed net))%nat /\
    (is_Some (_client self) ->
       _client self' = _client self /\ constructed net' = constructed net) /\
    (constructed net' = S (constructed net) -> is_Some (_client self')).

(** The same for a computation on the world. *)
Definition pool_discipline {A} (m : M World A) : Prop :=
  forall w,
    let w' := snd (m w) in
    released (network w') = released (network w) /\
    (constructed (network w) <= constructed (network w')
       <= S (constructed (network w)))%nat /\
    (is_Some (pooled w) ->
       pooled w' = pooled w /\ constructed (network w') = constructed (network w)) /\
    (constructed (network w') = S (constructed (network w)) -> is_Some (pooled w')).

(** A computation that writes no log line and leaves the environment. *)
Definition quiet {A} (m : M World A) : Prop :=
  forall w, log (snd (m w)) = log w /\ environ (snd (m w)) = environ w.

(** A tool logs one line, made from the exception, exactly when its [try]
    block raised, and leaves the environment. *)
Definition logs_failures (body tool : M World value) (prefix : string) : Prop :=
  forall w,
    environ (snd (tool w)) = environ w /\
    log (snd (tool w)) =
      match fst (body w) with
      | Return _ => log w
      | Raise e => log w ++ [prefix +:+ str_exn e]
      end.

(** Upstream answers the request [_make_request] builds from the world
    [w] with [response], a success. *)
Definition answers (w : World) (self : APIClient) (method endpoint : string)
    (params : option dict) (response : Response) : Prop :=
  upstream (network w) (outbox (network w))
    (APIClient.outgoing self method endpoint params) = inr response /\
  200 <= status_code response <= 299.

(** [item.get(k)] and [item.get(k, dflt)] for an object. *)
Definition or_none (k : string) (v : value) : value := default VNone (field k v).
Definition or_else (k : string) (dflt v : value) : value := default dflt (field k v).

(** [item.get(k, "").strip()] for an object whose [k] is a string or
    absent. *)
Definition stripped (k : string) (v : value) : value :=
  match field k v with
  | Some (VStr s) => VStr (strip s)
  | _ => VStr EmptyString
  end.

(** The records the tools make of an upstream object. *)
Definition search_record (item : value) : value :=
  VDict [("id", or_none "id" item);
         ("title", first_true "title" "name" item);
         ("description", stripped "description" item);
         ("url", or_none "url" item);
         ("tags", or_else "tags" (VList []) item)].

Definition details_record (item : value) : value :=
  VDict [("id", or_none "id" item);
         ("title", first_true "title" "name" item);
         ("description", stripped "description" item);
         ("full_description", stripped "full_description" item);
         ("url", or_none "url" item);
         ("created_date", first_true "created_at" "date" item);
         ("author", first_true "author" "creator" item);
         ("tags", or_else "tags" (VList []) item);
         ("category", or_none "category" item);
         ("metadata", or_else "metadata" (VDict []) item)].

Definition category_record (category : value) : value :=
  VDict [("id", or_none "id" category);
         ("name", or_none "name" category);
         ("description", or_none "description" category);
         ("item_count", first_true "count" "items" category);
         ("icon", or_none "icon" category)].

Definition popular_record (item : value) : value :=
  VDict [("id", or_none "id" item);
         ("title", first_true "title" "name" item);
         ("description", stripped "description" item);
         ("url", or_none "url" item);
         ("tags", or_else "tags" (VList []) item);
         ("popularity_score", first_true "score" "rating" item)].

(** What [o] raises, if anything, is neither of the two errors of the
    transport library that [_make_request] handles. *)
Definition no_transport_error {A} (o : outcome A) : Prop :=
  match o with
  | Raise (HTTPStatusError _ _) | Raise (RequestError _) => False
  | _ => True
  end.

(** A step of a tool that raises neither, whatever the world. *)
Definition hides_transport_errors {A} (m : M World A) : Prop :=
  forall w, no_transport_error (fst (m w)).

(** ** The integer settings of config.py

    [max_results] and [cache_ttl], which no part of the program reads, and
    [int(s)] for a [str], which they call: white space around the number,
    a sign, digits with single underscores between them, and no more than
    4300 digits. [api_timeout] makes a [float] and is left out. [int] is
    modelled on ASCII text: Python does not skip the separators 0x1c to
    0x1f that [strip] removes, and it accepts the digits and the white
    space beyond ASCII. *)

Module PyInt.

Fixpoint drop_underscores (after_digit : bool) (s : string) : option string :=
  match s with
  | EmptyString => if after_digit then Some EmptyString else None
  | String c r =>
      if Ascii.eqb c "_"%char
      then if after_digit then drop_underscores false r else None
      else String c <$> drop_underscores true r
  end.

Definition max_str_digits : nat := 4300.

Definition invalid_literal (s : string) : exn :=
  ValueError ("invalid literal for int() with base 10: "
              +:+ String.substring 0 200 (repr_str s)).

Definition too_many_digits (n : nat) : exn :=
  ValueError ("Exceeds the limit (4300 digits) for integer string conversion: value has "
              +:+ str_of_int (Z.of_nat n)
              +:+ " digits; use sys.set_int_max_str_digits() to increase the limit").

(** The sign, and what follows it. *)
Definition split_sign (s : string) : bool * string :=
  match s with
  | String c r =>
      if Ascii.eqb c "-"%char then (true, r)
      else if Ascii.eqb c "+"%char then (false, r)
      else (false, s)
  | EmptyString => (false, s)
  end.

Definition int (s : string) : outcome Z :=
  let (negative, body) := split_sign (strip s) in
  match drop_underscores false body with
  | Some digits =>
      match NilZero.uint_of_string digits with
      | Some u =>
          if (max_str_digits <? String.length digits)%nat
          then Raise (too_many_digits (String.length digits))
          else Return (if negative then - Z.of_uint u else Z.of_uint u)
      | None => Raise (invalid_literal s)
      end
  | None => Raise (invalid_literal s)
  end.

End PyInt.

Module NumericSettings.

Definition max_results (environ : gmap string string) : outcome Z :=
  PyInt.int (default "50" (environ !! "MAX_RESULTS")).

Definition cache_ttl (environ : gmap string string) : outcome Z :=
  PyInt.int (default "300" (environ !! "CACHE_TTL")).

End NumericSettings.

Definition is_digit (c : ascii) : bool :=
  let n := nat_of_ascii c in ((48 <=? n) && (n <=? 57))%nat.

Fixpoint all_digits (s : string) : bool :=
  match s with
  | EmptyString => true
  | String c r => is_digit c && all_digits r
  end.

(** * Proofs *)

(** ** Running the monads *)

Ltac unfold_monad :=
  unfold mbind, mret, M_bind, M_ret, outcome_bind, outcome_ret, raise, lift,
    get_state in *.

Lemma bind_run {S A B} (m : M S A) (f : A -> M S B) (s : S) :
  (m ≫= f) s =
  match m s with
  | (Return a, s') => f a s'
  | (Raise e, s') => (Raise e, s')
  end.
Proof. reflexivity. Qed.

(** A tool never raises: its handler has a clause for every exception. *)
Lemma try_except_Exception (body : M World value) pl po wrap w :
  try_except body (except_Exception pl po wrap) w =
  match body w with
  | (Return v, w') => (Return v, w')
  | (Raise e, w') =>
      (Return (wrap (sentinel (po +:+ str_exn e))),
       snd (logger_error (pl +:+ str_exn e) w'))
  end.
Proof.
  unfold try_except, except_Exception.
  destruct (body w) as [[v|e] w']; reflexivity.
Qed.

(** ** The pooled client *)

Lemma get_client_run self net :
  APIClient.get_client (self, net) =
  match _client self with
  | Some h => (Return h, (self, net))
  | None =>
      let h := {| handle_id := constructed net; timeout := 30; max_connections := 10;
                  max_keepalive_connections := 5;
                  headers := [("User-Agent", "Your MCP Server/1.0.0")] |} in
      (Return h,
       ({| base_url := base_url self; api_key := api_key self; _client := Some h |},
        {| constructed := S (constructed net); released := released net;
           outbox := outbox net; upstream := upstream net |}))
  end.
Proof.
  unfold APIClient.get_client, APIClient.get_self, APIClient.set__client,
    APIClient.on_net, httpx.AsyncClient_new.
  unfold_monad. cbn. destruct (_client self); reflexivity.
Qed.

Lemma close_run self net :
  APIClient.close (self, net) =
  match _client self with
  | Some h =>
      (Return tt,
       ({| base_url := base_url self; api_key := api_key self; _client := None |},
        snd (httpx.aclose h net)))
  | None => (Return tt, (self, net))
  end.
Proof.
  unfold APIClient.close, APIClient.get_self, APIClient.set__client,
    APIClient.on_net, httpx.aclose.
  unfold_monad. cbn. destruct (_client self); reflexivity.
Qed.

Lemma fresh_not_released net : net_ok net -> constructed net ∉ released net.
Proof.
  intros Hok Hin. unfold net_ok in Hok. rewrite Forall_forall in Hok.
  specialize (Hok _ Hin). lia.
Qed.

Lemma request_run h method url params net :
  handle_id h ∉ released net ->
  httpx.request h method url params net =
  let req := {| req_method := method; req_url := url; req_params := params |} in
  (match upstream net (outbox net) req with
   | inl msg => Raise (RequestError msg)
   | inr response => Return response
   end, sent req net).
Proof.
  intros Hopen. unfold httpx.request. rewrite bool_decide_eq_false_2 by assumption.
  cbn. destruct (upstream net _ _); reflexivity.
Qed.

(** After [get_client], the rest of [_make_request]: send through an
    open client, then sort the answer out. *)
Ltac send_and_sort Hopen :=
  unfold APIClient.get_self; rewrite bind_run; cbn beta iota zeta;
  unfold try_except, APIClient.on_net; rewrite bind_run; cbn [fst snd];
  rewrite request_run by Hopen; cbn zeta;
  unfold reply, httpx.raise_for_status, status_message, APIClient.outgoing;
  unfold_monad; cbn [req_method req_url req_params base_url api_key outbox upstream];
  match goal with
  | |- context [upstream ?n ?o ?r] =>
      destruct (upstream n o r); cbn; [reflexivity|]
  end;
  match goal with
  | |- context [(200 <=? ?c) && (?c <=? 299)] =>
      destruct ((200 <=? c) && (c <=? 299)); cbn;
      [ unfold httpx.json;
        match goal with |- context [json_body ?r] => destruct (json_body r) end;
        reflexivity
      | destruct (c =? 404); [reflexivity|];
        destruct (c =? 401); [reflexivity|];
        destruct (c =? 429); reflexivity ]
  end.

(** [_make_request] connects the instance, puts the request in the outbox
    and makes [reply] of the answer. *)
Lemma make_request_run self net method endpoint params :
  consistent self net ->
  APIClient._make_request method endpoint params (self, net) =
  let req := APIClient.outgoing self method endpoint params in
  let st := snd (APIClient.get_client (self, net)) in
  (reply endpoint (upstream net (outbox net) req), (fst st, sent req (snd st))).
Proof.
  intros [Hnet Hself]. unfold APIClient._make_request.
  rewrite bind_run, get_client_run. unfold holds_ok in Hself.
  destruct (_client self) as [h|] eqn:Hc; cbn zeta; cbn [fst snd].
  - send_and_sort ltac:(tauto).
  - send_and_sort ltac:(cbn; auto using fresh_not_released).
Qed.

(** ** Strings *)

Lemma append_cons (c : ascii) (a b : string) : String c a +:+ b = String c (a +:+ b).
Proof. reflexivity. Qed.

Lemma append_empty_r (s : string) : s +:+ EmptyString = s.
Proof. induction s as [|c s IH]; [reflexivity | by rewrite append_cons, IH]. Qed.

Lemma append_assoc' (a b c : string) : (a +:+ b) +:+ c = a +:+ b +:+ c.
Proof. induction a as [|x a IH]; [reflexivity | by rewrite !append_cons, IH]. Qed.

Lemma lower_append (a b : string) : lower (a +:+ b) = lower a +:+ lower b.
Proof.
  induction a as [|x a IH]; [reflexivity|].
  rewrite append_cons. cbn [lower]. by rewrite append_cons, IH.
Qed.

Lemma contains_suffix (pre s : string) : contains s (pre +:+ s).
Proof. exists pre, EmptyString. by rewrite append_empty_r. Qed.

Lemma contains_prefix (s post : string) : contains s (s +:+ post).
Proof. by exists EmptyString, post. Qed.

Lemma contains_middle (pre s post : string) : contains s (pre +:+ s +:+ post).
Proof. by exists pre, post. Qed.

(** ** The invariant *)

Lemma get_client_consistent self net :
  consistent self net ->
  consistent (self_after APIClient.get_client self net) (net_after APIClient.get_client self net).
Proof.
  unfold self_after, net_after, consistent, net_ok, holds_ok.
  rewrite get_client_run. intros [Hnet Hself].
  destruct (_client self) as [h|] eqn:Hc; cbn; [by rewrite Hc|].
  split; [|split; [lia|]].
  - eapply Forall_impl; [exact Hnet|]. cbn. lia.
  - by apply fresh_not_released.
Qed.

Lemma get_client_config self net :
  base_url (self_after APIClient.get_client self net) = base_url self /\
  api_key (self_after APIClient.get_client self net) = api_key self /\
  outbox (net_after APIClient.get_client self net) = outbox net /\
  upstream (net_after APIClient.get_client self net) = upstream net.
Proof.
  unfold self_after, net_after. rewrite get_client_run.
  destruct (_client self); cbn; auto.
Qed.

Lemma close_consistent self net :
  consistent self net ->
  consistent (self_after APIClient.close self net) (net_after APIClient.close self net).
Proof.
  unfold self_after, net_after, consistent, net_ok, holds_ok.
  rewrite close_run. intros [Hnet Hself].
  destruct (_client self) as [h|] eqn:Hc; cbn; [|by rewrite Hc].
  split; [|done]. unfold httpx.aclose. cbn. case_bool_decide; [done|].
  cbn. constructor; [tauto | done].
Qed.

Lemma sent_consistent req self net : consistent self net -> consistent self (sent req net).
Proof. unfold consistent, net_ok, holds_ok, sent. cbn. done. Qed.

Lemma make_request_consistent self net method endpoint params :
  consistent self net ->
  consistent (self_after (APIClient._make_request method endpoint params) self net)
             (net_after (APIClient._make_request method endpoint params) self net).
Proof.
  intros H. unfold self_after, net_after. rewrite make_request_run by done. cbn.
  apply sent_consistent. by apply get_client_consistent.
Qed.

Lemma issued_sent req net net' :
  outbox net' = outbox net -> issued net (sent req net') = [req].
Proof.
  intros H. unfold issued, sent. cbn. rewrite H. by rewrite drop_app_length.
Qed.

(** One call of [_make_request], one request: the one [outgoing] builds. *)
Lemma make_request_issued self net method endpoint params :
  consistent self net ->
  issued net (net_after (APIClient._make_request method endpoint params) self net) =
  [APIClient.outgoing self method endpoint params].
Proof.
  intros H. unfold net_after. rewrite make_request_run by done. cbn.
  apply issued_sent. apply get_client_config.
Qed.

Lemma limit_sent self net query category_id limit :
  consistent self net ->
  sends_limit (APIClient.search query limit) self net (Z.min limit 50) /\
  sends_limit (APIClient.get_popular_items limit) self net (Z.min limit 50) /\
  sends_limit (APIClient.get_items_by_category category_id limit) self net (Z.min limit 50).
Proof.
  intros H. unfold sends_limit, APIClient.search, APIClient.get_popular_items,
    APIClient.get_items_by_category.
  repeat split; eexists; (split; [by apply make_request_issued | reflexivity]).
Qed.

(** ** Result-count limits *)

(** C1. A limit above 50 passed to [search], [get_popular_items] or
    [get_items_by_category] goes upstream as 50; a limit of at most 50
    goes upstream as it is. *)
Theorem limit_clamped_to_50 self net query category_id limit :
  consistent self net ->
  (50 < limit ->
   sends_limit (APIClient.search query limit) self net 50 /\
   sends_limit (APIClient.get_popular_items limit) self net 50 /\
   sends_limit (APIClient.get_items_by_category category_id limit) self net 50) /\
  (limit <= 50 ->
   sends_limit (APIClient.search query limit) self net limit /\
   sends_limit (APIClient.get_popular_items limit) self net limit /\
   sends_limit (APIClient.get_items_by_category category_id limit) self net limit).
Proof.
  intros H. pose proof (limit_sent self net query category_id limit H) as Hmin.
  split; intros Hl.
  - rewrite Z.min_r in Hmin by lia. exact Hmin.
  - rewrite Z.min_l in Hmin by lia. exact Hmin.
Qed.

Lemma sample_consistent up : consistent Sample.instance (Sample.net up).
Proof. split; [constructor | exact I]. Qed.

Lemma limit_clamped_to_50_witness :
  sends_limit (APIClient.search "coffee" 200) Sample.instance
    (Sample.net (fun _ _ => Sample.ok_json Sample.one_foo)) 50 /\
  sends_limit (APIClient.search "coffee" 5) Sample.instance
    (Sample.net (fun _ _ => Sample.ok_json Sample.one_foo)) 5.
Proof.
  split.
  - destruct (limit_clamped_to_50 Sample.instance
                (Sample.net (fun _ _ => Sample.ok_json Sample.one_foo))
                "coffee" VNone 200 (sample_consistent _)) as [Hhigh _].
    destruct (Hhigh ltac:(lia)) as [Hsearch _]. exact Hsearch.
  - destruct (limit_clamped_to_50 Sample.instance
                (Sample.net (fun _ _ => Sample.ok_json Sample.one_foo))
                "coffee" VNone 5 (sample_consistent _)) as [_ Hlow].
    destruct (Hlow ltac:(lia)) as [Hsearch _]. exact Hsearch.
Defined.

(** C9. The clamp has no lower bound: every limit of at most 50, zero
    and the negative ones among them, is the [limit] parameter of the one
    request that [search], [get_popular_items] and [get_items_by_category]
    issue. *)
Theorem limit_has_no_lower_bound self net query category_id limit :
  consistent self net ->
  limit <= 50 ->
  sends_limit (APIClient.search query limit) self net limit /\
  sends_limit (APIClient.get_popular_items limit) self net limit /\
  sends_limit (APIClient.get_items_by_category category_id limit) self net limit.
Proof.
  intros H Hl. pose proof (limit_sent self net query category_id limit H) as Hmin.
  rewrite Z.min_l in Hmin by lia. exact Hmin.
Qed.

Lemma limit_has_no_lower_bound_witness :
  sends_limit (APIClient.search "coffee" (-3)) Sample.instance
    (Sample.net (fun _ _ => Sample.ok_json Sample.one_foo)) (-3) /\
  sends_limit (APIClient.get_popular_items 0) Sample.instance
    (Sample.net (fun _ _ => Sample.ok_json Sample.one_foo)) 0.
Proof.
  split.
  - destruct (limit_has_no_lower_bound Sample.instance
                (Sample.net (fun _ _ => Sample.ok_json Sample.one_foo))
                "coffee" VNone (-3) (sample_consistent _) ltac:(lia))
      as [Hsearch _]. exact Hsearch.
  - destruct (limit_has_no_lower_bound Sample.instance
                (Sample.net (fun _ _ => Sample.ok_json Sample.one_foo))
                "coffee" VNone 0 (sample_consistent _) ltac:(lia))
      as (_ & Hpopular & _). exact Hpopular.
Defined.

(** ** Status errors *)

(** C2. A response with status 400 or more makes [_make_request] raise
    [APIError]: for 404 the message is [Not found: ] followed by the
    endpoint, for 401 it reports the failed authentication, for 429 the
    rate limit, and for any other status it carries the status code and the
    text of the response. *)
Theorem status_error_messages self net method endpoint params response :
  consistent self net ->
  upstream net (outbox net) (APIClient.outgoing self method endpoint params) = inr response ->
  400 <= status_code response ->
  exists msg,
    result_of (APIClient._make_request method endpoint params) self net
      = Raise (APIError msg) /\
    (status_code response = 404 ->
       msg = "Not found: " +:+ endpoint /\
       contains "not found" (lower msg) /\ contains endpoint msg) /\
    (status_code response = 401 ->
       msg = "Invalid API key or authentication failed" /\
       contains "authentication failed" msg) /\
    (status_code response = 429 ->
       msg = "Rate limit exceeded - try again later" /\
       contains "Rate limit" msg) /\
    (status_code response <> 404 -> status_code response <> 401 ->
     status_code response <> 429 ->
       msg = "API error " +:+ str_of_int (status_code response) +:+ ": " +:+ text response /\
       contains (str_of_int (status_code response)) msg /\
       contains (text response) msg).
Proof.
  intros H Hup Hst. exists (status_message endpoint response).
  split.
  { unfold result_of. rewrite make_request_run by done. cbn zeta. cbn [fst].
    rewrite Hup. unfold reply.
    replace (status_code response <=? 299) with false by lia.
    by rewrite andb_false_r. }
  unfold status_message.
  split; [|split; [|split]].
  - intros ->. cbn [Z.eqb Pos.eqb]. rewrite lower_append.
    split; [reflexivity|]. split; [|apply contains_suffix].
    exists EmptyString, (": " +:+ lower endpoint). reflexivity.
  - intros ->. cbn [Z.eqb Pos.eqb]. split; [reflexivity|].
    by exists "Invalid API key or ", EmptyString.
  - intros ->. cbn [Z.eqb Pos.eqb]. split; [reflexivity|].
    by exists EmptyString, " exceeded - try again later".
  - intros H404 H401 H429.
    rewrite !(proj2 (Z.eqb_neq _ _)) by done.
    split; [reflexivity|]. split; [apply contains_middle|].
    rewrite <- !append_assoc'. apply contains_suffix.
Qed.

Lemma status_error_messages_witness :
  result_of (APIClient._make_request "GET" "/items/9" None) Sample.instance
    (Sample.net (fun _ _ => Sample.status 404 "no such item"))
  = Raise (APIError "Not found: /items/9").
Proof.
  destruct (status_error_messages Sample.instance
              (Sample.net (fun _ _ => Sample.status 404 "no such item"))
              "GET" "/items/9" None
              {| status_code := 404; text := "no such item";
                 json_body := inl "Expecting value: line 1 column 1 (char 0)" |}
              (sample_consistent _) eq_refl ltac:(cbn; lia))
    as (msg & Hrun & H404 & _).
  destruct (H404 eq_refl) as [-> _]. exact Hrun.
Defined.

(** ** The shared instance *)

Lemma get_api_client_run w :
  get_api_client w =
  match global_client w with
  | Some _ => (Return TheClient, w)
  | None =>
      match APIClient.__init__ (environ w) with
      | Return c => (Return TheClient, snd (set_global_client (Some c) w))
      | Raise e => (Raise e, w)
      end
  end.
Proof.
  unfold get_api_client. rewrite bind_run. cbn [get_state].
  unfold get_state. destruct (global_client w); [reflexivity|].
  rewrite bind_run. unfold lift.
  destruct (APIClient.__init__ (environ w)); reflexivity.
Qed.

Lemma invoke_run {A} (m : Method A) w self :
  global_client w = Some self ->
  invoke TheClient m w =
  (result_of m self (network w),
   {| environ := environ w; global_client := Some (self_after m self (network w));
      network := net_after m self (network w); log := log w |}).
Proof.
  intros H. unfold invoke, result_of, self_after, net_after. rewrite H.
  destruct (m (self, network w)) as [r st]. reflexivity.
Qed.

Lemma cleanup_api_client_run w :
  cleanup_api_client w =
  match global_client w with
  | Some self =>
      (Return tt,
       {| environ := environ w; global_client := None;
          network := net_after APIClient.close self (network w); log := log w |})
  | None => (Return tt, w)
  end.
Proof.
  unfold cleanup_api_client. rewrite bind_run. unfold get_state.
  destruct (global_client w) as [self|] eqn:Hg; [|reflexivity].
  rewrite bind_run, (invoke_run _ _ self Hg).
  unfold result_of. rewrite close_run.
  destruct (_client self); reflexivity.
Qed.

(** C7. [get_client] called twice in a row, with no [close] in between,
    returns the same pooled client both times; the second call constructs
    nothing and leaves the state as the first call left it. *)
Theorem get_client_twice_same_handle self net :
  exists h st,
    APIClient.get_client (self, net) = (Return h, st) /\
    APIClient.get_client st = (Return h, st) /\
    (h1 ← APIClient.get_client; h2 ← APIClient.get_client; mret (h1, h2)) (self, net)
      = (Return (h, h), st) /\
    (constructed (snd st) <= S (constructed net))%nat /\
    _client (fst st) = Some h.
Proof.
  destruct (APIClient.get_client (self, net)) as [r st] eqn:Hfirst.
  rewrite get_client_run in Hfirst.
  assert (exists h, r = Return h /\ _client (fst st) = Some h /\
                    (constructed (snd st) <= S (constructed net))%nat) as (h & -> & Hh & Hn).
  { destruct (_client self) as [h|] eqn:Hc; inversion Hfirst; subst; cbn.
    - exists h. rewrite Hc. auto.
    - eexists. repeat split. lia. }
  assert (Hsecond : APIClient.get_client st = (Return h, st)).
  { destruct st as [self' net']. rewrite get_client_run. cbn in Hh. by rewrite Hh. }
  exists h, st. repeat split; try done.
  rewrite bind_run, get_client_run.
  destruct (_client self) as [h0|] eqn:Hc.
  - inversion Hfirst; subst. rewrite bind_run, get_client_run, Hc. reflexivity.
  - cbn zeta. inversion Hfirst; subst. rewrite bind_run, get_client_run. reflexivity.
Qed.

(** C8. [cleanup_api_client] called twice in a row does not raise, and the
    second call changes nothing: after the first the instance is gone and
    the pooled client it held is closed. [close] on an instance without a
    pooled client does nothing. *)
Theorem cleanup_twice_is_cleanup_once w :
  exists w1,
    cleanup_api_client w = (Return tt, w1) /\
    cleanup_api_client w1 = (Return tt, w1) /\
    (cleanup_api_client;; cleanup_api_client) w = (Return tt, w1) /\
    global_client w1 = None /\
    match global_client w with
    | Some self =>
        match _client self with
        | Some h => handle_id h ∈ released (network w1)
        | None => network w1 = network w
        end
    | None => w1 = w
    end /\
    forall url key net,
      APIClient.close ({| base_url := url; api_key := key; _client := None |}, net)
      = (Return tt, ({| base_url := url; api_key := key; _client := None |}, net)).
Proof.
  assert (Hclose : forall url key net,
    APIClient.close ({| base_url := url; api_key := key; _client := None |}, net)
    = (Return tt, ({| base_url := url; api_key := key; _client := None |}, net))).
  { intros. by rewrite close_run. }
  destruct (global_client w) as [self|] eqn:Hg.
  - exists {| environ := environ w; global_client := None;
              network := net_after APIClient.close self (network w); log := log w |}.
    split; [by rewrite cleanup_api_client_run, Hg|].
    split; [by rewrite cleanup_api_client_run|].
    split; [by rewrite bind_run, cleanup_api_client_run, Hg, cleanup_api_client_run|].
    split; [reflexivity|]. split; [|exact Hclose].
    cbn [network]. unfold net_after. rewrite close_run.
    destruct (_client self) as [h|]; [|reflexivity].
    cbn [snd]. unfold httpx.aclose. cbn [snd]. case_bool_decide; [done|].
    cbn [released]. by left.
  - exists w.
    split; [by rewrite cleanup_api_client_run, Hg|].
    split; [by rewrite cleanup_api_client_run, Hg|].
    split; [by rewrite bind_run, cleanup_api_client_run, Hg, cleanup_api_client_run, Hg|].
    split; [done|]. split; [done|]. exact Hclose.
Qed.

(** ** The tool boundary *)

Lemma tool_contains_failures body pl po wrap w :
  contains_failures body (try_except body (except_Exception pl po wrap)) wrap po w.
Proof.
  unfold contains_failures. rewrite try_except_Exception.
  destruct (body w) as [[v|e] w']; cbn [fst]; eauto.
Qed.

(** C3. Whatever the input and whatever fails while it runs, each of the
    four tools returns: when its [try] block raised, with the error
    sentinel made from the exception, and otherwise with what the block
    returned. No exception leaves a tool. *)
Theorem tools_never_raise w query limit item_id category :
  contains_failures (search_items_try query limit) (search_items query limit)
    in_list "Search failed: " w /\
  contains_failures (get_item_details_try item_id) (get_item_details item_id)
    id "Failed to get item details: " w /\
  contains_failures list_categories_try list_categories
    in_list "Failed to list categories: " w /\
  contains_failures (get_popular_items_try limit category)
    (get_popular_items limit category) in_list "Failed to get popular items: " w.
Proof.
  repeat split; apply tool_contains_failures.
Qed.

(** The four kinds of failure, on [search_items]: a status error, a
    transport failure, a body that is not JSON, an item that is not an
    object. *)
Example search_items_status_error :
  fst (search_items "coffee" 5 (Sample.fresh (fun _ _ => Sample.status 503 "down")))
  = Return (VList [sentinel "Search failed: API error 503: down"]).
Proof. vm_compute. reflexivity. Qed.

Example search_items_transport_failure :
  fst (search_items "coffee" 5 (Sample.fresh (fun _ _ => inl "timed out")))
  = Return (VList [sentinel "Search failed: Request failed: timed out"]).
Proof. vm_compute. reflexivity. Qed.

Example search_items_not_json :
  fst (search_items "coffee" 5 (Sample.fresh (fun _ _ => Sample.status 200 "<html>")))
  = Return (VList [sentinel "Search failed: Expecting value: line 1 column 1 (char 0)"]).
Proof. vm_compute. reflexivity. Qed.

Example search_items_bad_item :
  fst (search_items "coffee" 5
         (Sample.fresh (fun _ _ => Sample.ok_json (VDict [("results", VList [VInt 3])]))))
  = Return (VList [sentinel "Search failed: 'int' object has no attribute 'get'"]).
Proof. vm_compute. reflexivity. Qed.

Example get_item_details_status_error :
  fst (get_item_details "9" (Sample.fresh (fun _ _ => Sample.status 404 "gone")))
  = Return (sentinel "Failed to get item details: Not found: /items/9").
Proof. vm_compute. reflexivity. Qed.

(** ** The required key *)

Lemma api_key_missing (env : gmap string string) :
  env !! "API_KEY" = None \/ env !! "API_KEY" = Some EmptyString ->
  Settings.api_key env = Raise (ValueError Settings.api_key_required).
Proof. unfold Settings.api_key. intros [-> | ->]; reflexivity. Qed.

Lemma init_missing_key (env : gmap string string) :
  env !! "API_KEY" = None \/ env !! "API_KEY" = Some EmptyString ->
  APIClient.__init__ env = Raise (ValueError Settings.api_key_required).
Proof. intros H. unfold APIClient.__init__. by rewrite api_key_missing. Qed.

(** A tool whose [try] block starts with [get_api_client] stops there when
    no instance can be made. *)
Lemma tool_without_instance {A} (rest : client_ref -> M World A) w e :
  global_client w = None ->
  APIClient.__init__ (environ w) = Raise e ->
  (get_api_client ≫= rest) w = (Raise e, w).
Proof.
  intros Hg Hinit. rewrite bind_run, get_api_client_run, Hg, Hinit. reflexivity.
Qed.

(** C6. Without [API_KEY] in the environment, or with an empty one, reading
    the [api_key] setting raises the configuration error; constructing the
    client raises it too, so that with no instance stored [get_api_client]
    fails and leaves the world as it was, and each tool ends with its
    sentinel, the network untouched: no request has been issued. *)
Theorem missing_api_key_fails_before_any_request w query limit item_id category :
  environ w !! "API_KEY" = None \/ environ w !! "API_KEY" = Some EmptyString ->
  global_client w = None ->
  Settings.api_key (environ w) = Raise (ValueError Settings.api_key_required) /\
  APIClient.__init__ (environ w) = Raise (ValueError Settings.api_key_required) /\
  get_api_client w = (Raise (ValueError Settings.api_key_required), w) /\
  (fst (search_items query limit w)
     = Return (VList [sentinel ("Search failed: " +:+ Settings.api_key_required)]) /\
   network (snd (search_items query limit w)) = network w) /\
  (fst (get_item_details item_id w)
     = Return (sentinel ("Failed to get item details: " +:+ Settings.api_key_required)) /\
   network (snd (get_item_details item_id w)) = network w) /\
  (fst (list_categories w)
     = Return (VList [sentinel ("Failed to list categories: " +:+ Settings.api_key_required)]) /\
   network (snd (list_categories w)) = network w) /\
  (fst (get_popular_items limit category w)
     = Return (VList [sentinel ("Failed to get popular items: " +:+ Settings.api_key_required)]) /\
   network (snd (get_popular_items limit category w)) = network w).
Proof.
  intros Hkey Hg. pose proof (init_missing_key _ Hkey) as Hinit.
  split; [by apply api_key_missing|]. split; [exact Hinit|].
  split; [by rewrite get_api_client_run, Hg, Hinit|].
  unfold search_items, get_item_details, list_categories, get_popular_items.
  rewrite !try_except_Exception.
  unfold search_items_try, get_item_details_try, list_categories_try,
    get_popular_items_try.
  rewrite !(tool_without_instance _ w _ Hg Hinit).
  repeat split.
Qed.

Lemma missing_api_key_fails_before_any_request_witness :
  get_api_client (Sample.keyless (fun _ _ => Sample.ok_json Sample.one_foo))
  = (Raise (ValueError Settings.api_key_required),
     Sample.keyless (fun _ _ => Sample.ok_json Sample.one_foo)) /\
  outbox (network (snd (search_items "coffee" 5
            (Sample.keyless (fun _ _ => Sample.ok_json Sample.one_foo))))) = [].
Proof.
  destruct (missing_api_key_fails_before_any_request
              (Sample.keyless (fun _ _ => Sample.ok_json Sample.one_foo))
              "coffee" 5 "9" None (or_introl eq_refl) eq_refl)
    as (_ & _ & Hget & [_ Hnet] & _).
  split; [exact Hget|]. rewrite Hnet. reflexivity.
Defined.

(** ** Tools on a consistent world *)

Lemma instance_consistent w self :
  world_ok w -> instance_of w = Return self -> consistent self (network w).
Proof.
  unfold world_ok, instance_of, consistent. intros [Hnet Hholds] Hinst.
  split; [exact Hnet|].
  destruct (global_client w) as [c|]; [by inversion Hinst; subst|].
  unfold APIClient.__init__ in Hinst.
  destruct (Settings.api_key (environ w)); inversion Hinst. exact I.
Qed.

Lemma get_api_client_instance w self :
  instance_of w = Return self ->
  get_api_client w = (Return TheClient, with_client self w).
Proof.
  unfold instance_of. intros Hinst. rewrite get_api_client_run.
  destruct (global_client w) as [c|] eqn:Hg.
  - inversion Hinst; subst. unfold with_client. rewrite <- Hg. by destruct w.
  - by rewrite Hinst.
Qed.

(** One request made through the reference: the request goes out and the
    reply comes back. *)
Lemma invoke_request w self method endpoint params :
  global_client w = Some self ->
  consistent self (network w) ->
  invoke TheClient (APIClient._make_request method endpoint params) w =
  (reply endpoint
     (upstream (network w) (outbox (network w))
        (APIClient.outgoing self method endpoint params)),
   after_method (APIClient._make_request method endpoint params) self w).
Proof.
  intros Hg Hcons. rewrite (invoke_run _ w self Hg).
  unfold result_of. by rewrite make_request_run.
Qed.

(** The first two steps of every [try] block: get the client, make the
    request. *)
Ltac first_request Hok Hinst :=
  rewrite bind_run, (get_api_client_instance _ _ Hinst);
  rewrite bind_run;
  match goal with
  | |- context [invoke TheClient _ (with_client ?s ?w0)] =>
      rewrite (invoke_request (with_client s w0) s _ _ _ eq_refl
                 (instance_consistent _ _ Hok Hinst))
  end;
  cbn [with_client network].

Lemma reply_success endpoint response v :
  200 <= status_code response <= 299 ->
  json_body response = inr v ->
  reply endpoint (inr response) = Return v.
Proof.
  intros Hst Hjson. unfold reply, httpx.json.
  replace (200 <=? status_code response) with true by lia.
  replace (status_code response <=? 299) with true by lia.
  by rewrite Hjson.
Qed.

(** C4. When upstream answers the search request with the object whose
    [results] is the one item with id 1 and name Foo, [search_items]
    returns the one record with that id, the name as title, an empty
    description, a null url and no tags. *)
Theorem search_items_reshapes_foo w self query limit response :
  world_ok w ->
  instance_of w = Return self ->
  upstream (network w) (outbox (network w))
    (APIClient.outgoing self "GET" "/search"
       (Some [("q", VStr query); ("limit", VInt (Z.min limit 50))])) = inr response ->
  200 <= status_code response <= 299 ->
  json_body response = inr Sample.one_foo ->
  fst (search_items query limit w) = Return (VList [Sample.foo_item]).
Proof.
  intros Hok Hinst Hup Hst Hjson.
  unfold search_items. rewrite try_except_Exception. unfold search_items_try.
  unfold APIClient.search. first_request Hok Hinst.
  rewrite Hup, (reply_success _ _ _ Hst Hjson). reflexivity.
Qed.

Lemma fresh_world_ok up : world_ok (Sample.fresh up).
Proof. split; [constructor | exact I]. Qed.

Lemma search_items_reshapes_foo_witness :
  fst (search_items "coffee" 5 Sample.foo_world) = Return (VList [Sample.foo_item]).
Proof.
  apply (search_items_reshapes_foo Sample.foo_world Sample.instance "coffee" 5
           {| status_code := 200; text := "{...}"; json_body := inr Sample.one_foo |}
           (fresh_world_ok _) eq_refl eq_refl ltac:(cbn; lia) eq_refl).
Defined.

(** Whatever the wrapper raises for the answer of upstream, [search_items]
    turns into its sentinel. *)
Lemma search_items_reports_failure w self query limit e :
  world_ok w ->
  instance_of w = Return self ->
  reply "/search"
    (upstream (network w) (outbox (network w))
       (APIClient.outgoing self "GET" "/search"
          (Some [("q", VStr query); ("limit", VInt (Z.min limit 50))]))) = Raise e ->
  fst (search_items query limit w)
  = Return (VList [sentinel ("Search failed: " +:+ str_exn e)]).
Proof.
  intros Hok Hinst Hreply.
  unfold search_items. rewrite try_except_Exception. unfold search_items_try.
  unfold APIClient.search. first_request Hok Hinst.
  rewrite Hreply. reflexivity.
Qed.

(** A reference is handed out only while the cell is full, and a method
    called through it leaves the cell full. *)
Lemma get_api_client_fills w r w' :
  get_api_client w = (Return r, w') -> is_Some (global_client w').
Proof.
  rewrite get_api_client_run. destruct (global_client w) as [c|] eqn:Hg.
  - intros [= _ <-]. by rewrite Hg.
  - destruct (APIClient.__init__ (environ w)); intros [= _ <-]. by eexists.
Qed.

Lemma invoke_keeps_full {A} (m : Method A) client w :
  is_Some (global_client w) -> is_Some (global_client (snd (invoke client m w))).
Proof.
  intros [c Hg]. destruct client. rewrite (invoke_run _ _ c Hg). by eexists.
Qed.

(** ** Looking a category up *)


Lemma given_nonempty c : c <> EmptyString -> given (Some c) = Some c.
Proof. intros H. unfold given. by rewrite (proj2 (String.eqb_neq _ _) H). Qed.




(** ** Settings are read once *)

Lemma dict_lookup_set k v d : dict_lookup k (dict_set k v d) = Some v.
Proof.
  induction d as [|[k' v'] d IH]; cbn [dict_set dict_lookup].
  - by rewrite String.eqb_refl.
  - destruct (String.eqb k k') eqn:Hk; cbn [dict_lookup].
    + by rewrite String.eqb_refl.
    + by rewrite Hk.
Qed.

Lemma outgoing_stamped self method endpoint params :
  stamped self (APIClient.outgoing self method endpoint params).
Proof.
  split; [by eexists | apply dict_lookup_set].
Qed.

Lemma stamped_same self c req :
  base_url c = base_url self -> api_key c = api_key self ->
  stamped c req -> stamped self req.
Proof. unfold stamped. by intros -> ->. Qed.

(** The state after [_make_request], consistent or not. *)
Lemma make_request_state self net method endpoint params :
  snd (APIClient._make_request method endpoint params (self, net)) =
  (self_after APIClient.get_client self net,
   if refused self net then net_after APIClient.get_client self net
   else sent (APIClient.outgoing self method endpoint params)
          (net_after APIClient.get_client self net)).
Proof.
  unfold APIClient._make_request, refused, result_of, self_after, net_after.
  rewrite bind_run, get_client_run.
  destruct (_client self) as [h|] eqn:Hc; cbn zeta; cbn [fst snd];
    unfold APIClient.get_self; rewrite bind_run; cbn beta iota zeta;
    unfold try_except, APIClient.on_net; rewrite bind_run; cbn [fst snd];
    unfold httpx.request; case_bool_decide; cbn [fst snd]; try reflexivity;
    unfold httpx.raise_for_status, APIClient.outgoing, sent; unfold_monad;
    cbn [req_method req_url req_params base_url api_key outbox upstream];
    match goal with
    | |- context [upstream ?n ?o ?r] => destruct (upstream n o r); cbn; [reflexivity|]
    end;
    match goal with
    | |- context [(200 <=? ?c) && (?c <=? 299)] =>
        destruct ((200 <=? c) && (c <=? 299)); cbn;
        [ unfold httpx.json;
          match goal with |- context [json_body ?r] => destruct (json_body r) end;
          reflexivity
        | destruct (c =? 404); [reflexivity|];
          destruct (c =? 401); [reflexivity|];
          destruct (c =? 429); reflexivity ]
    end.
Qed.

Lemma get_client_keeps_settings : method_keeps_settings APIClient.get_client.
Proof.
  intros self net. destruct (get_client_config self net) as (Hb & Hk & Ho & _).
  repeat split; try done. exists []. by rewrite Ho, app_nil_r.
Qed.

Lemma close_keeps_settings : method_keeps_settings APIClient.close.
Proof.
  intros self net. unfold self_after, net_after. rewrite close_run.
  destruct (_client self) as [h|]; cbn [fst snd base_url api_key].
  - split; [reflexivity|]. split; [reflexivity|]. exists [].
    split; [|constructor]. rewrite app_nil_r.
    unfold httpx.aclose. cbn [snd]. by case_bool_decide.
  - split; [reflexivity|]. split; [reflexivity|]. exists [].
    split; [by rewrite app_nil_r | constructor].
Qed.

Lemma make_request_keeps_settings method endpoint params :
  method_keeps_settings (APIClient._make_request method endpoint params).
Proof.
  intros self net. unfold self_after, net_after. rewrite make_request_state.
  destruct (get_client_config self net) as (Hb & Hk & Ho & _).
  cbn [fst snd]. split; [exact Hb|]. split; [exact Hk|].
  destruct (refused self net).
  - exists []. by rewrite Ho, app_nil_r.
  - exists [APIClient.outgoing self method endpoint params].
    split; [cbn; by rewrite Ho|]. constructor; [apply outgoing_stamped | constructor].
Qed.

(** *** Tools are built from steps that use the stored settings *)

Lemma uses_mret {A} self (a : A) : uses_settings_of self (mret a : M World A).
Proof. intros w H. split; [exact H|]. exists []. by rewrite app_nil_r. Qed.

Lemma uses_lift {A} self (o : outcome A) : uses_settings_of self (lift o : M World A).
Proof. intros w H. split; [exact H|]. exists []. by rewrite app_nil_r. Qed.

Lemma uses_logger_error self msg : uses_settings_of self (logger_error msg).
Proof. intros w H. split; [exact H|]. exists []. cbn. by rewrite app_nil_r. Qed.

Lemma uses_get_api_client self : uses_settings_of self get_api_client.
Proof.
  intros w H. unfold run_uses_settings. rewrite get_api_client_run.
  destruct H as (c & Hg & Hb & Hk). rewrite Hg. cbn [snd].
  split; [by exists c|]. exists []. by rewrite app_nil_r.
Qed.

Lemma uses_invoke {A} self (m : Method A) client :
  method_keeps_settings m -> uses_settings_of self (invoke client m).
Proof.
  intros Hm w (c & Hg & Hb & Hk). destruct client. unfold run_uses_settings.
  rewrite (invoke_run _ _ c Hg). cbn [snd network].
  destruct (Hm c (network w)) as (Hb' & Hk' & new & Hout & Hnew).
  split.
  - eexists. split; [reflexivity|]. split; congruence.
  - exists new. split; [exact Hout|].
    eapply Forall_impl; [exact Hnew|]. intros req. by apply stamped_same.
Qed.

Lemma uses_bind {A B} self (m : M World A) (f : A -> M World B) :
  uses_settings_of self m -> (forall a, uses_settings_of self (f a)) ->
  uses_settings_of self (m ≫= f).
Proof.
  intros Hm Hf w H. unfold run_uses_settings. rewrite bind_run.
  destruct (Hm w H) as (Hsame & new & Hout & Hnew).
  destruct (m w) as [[a|e] w1]; cbn [snd] in *.
  - destruct (Hf a w1 Hsame) as (Hsame' & new' & Hout' & Hnew').
    split; [exact Hsame'|]. exists (new ++ new').
    split; [by rewrite Hout', Hout, app_assoc | by apply Forall_app].
  - split; [exact Hsame|]. by exists new.
Qed.

Lemma uses_try_except self (body : M World value) pl po wrap :
  uses_settings_of self body ->
  uses_settings_of self (try_except body (except_Exception pl po wrap)).
Proof.
  intros Hbody w H. unfold run_uses_settings. rewrite try_except_Exception.
  destruct (Hbody w H) as (Hsame & new & Hout & Hnew).
  destruct (body w) as [[v|e] w1]; cbn [snd] in *.
  - split; [exact Hsame|]. by exists new.
  - split; [exact Hsame|]. by exists new.
Qed.

Create HintDb settings.

#[local] Hint Resolve uses_mret uses_lift uses_logger_error uses_get_api_client
  uses_invoke make_request_keeps_settings : settings.

Ltac uses_settings :=
  repeat first
    [ solve [eauto with settings]
    | simple apply uses_try_except
    | simple apply uses_bind
    | intro ].

Lemma search_items_uses_settings self query limit :
  uses_settings_of self (search_items query limit).
Proof.
  unfold search_items, search_items_try, APIClient.search. uses_settings.
Qed.

Lemma get_item_details_uses_settings self item_id :
  uses_settings_of self (get_item_details item_id).
Proof.
  unfold get_item_details, get_item_details_try, APIClient.get_details. uses_settings.
Qed.

Lemma list_categories_uses_settings self : uses_settings_of self list_categories.
Proof.
  unfold list_categories, list_categories_try, APIClient.list_categories. uses_settings.
Qed.

Lemma get_popular_items_uses_settings self limit category :
  uses_settings_of self (get_popular_items limit category).
Proof.
  unfold get_popular_items, get_popular_items_try, popular_items_of,
    APIClient.list_categories, APIClient.get_popular_items,
    APIClient.get_items_by_category.
  apply uses_try_except, uses_bind; [apply uses_get_api_client|]. intros client.
  destruct (given category) as [c|].
  - apply uses_bind; [eauto with settings|]. intros listing.
    apply uses_bind; [eauto with settings|]. intros category_id.
    destruct (truthy category_id); uses_settings.
  - uses_settings.
Qed.

Lemma init_with_key (env : gmap string string) key :
  env !! "API_KEY" = Some key -> key <> EmptyString ->
  APIClient.__init__ env =
  Return {| base_url := Settings.api_base_url env; api_key := key; _client := None |}.
Proof.
  intros Hkey Hne. unfold APIClient.__init__, Settings.api_key.
  by rewrite Hkey, (proj2 (String.eqb_neq _ _) Hne).
Qed.

Lemma same_config_with_environ self env w :
  global_client w = Some self -> same_config self (with_environ env w).
Proof. intros H. exists self. by rewrite <- H. Qed.

(** C10. The base URL and the key are read from the settings by the
    constructor, and no method of the client changes them. So once the
    instance is stored, whatever the environment has become, every request
    a tool issues carries the values the instance was built with, and the
    instance keeps them; only after [cleanup_api_client] has emptied the
    cell does [get_api_client] build an instance from the environment as
    it then is. *)
Theorem settings_fixed_at_construction w self env key query limit item_id category :
  global_client w = Some self ->
  env !! "API_KEY" = Some key ->
  key <> EmptyString ->
  APIClient.__init__ env =
    Return {| base_url := Settings.api_base_url env; api_key := key; _client := None |} /\
  (method_keeps_settings APIClient.get_client /\
   method_keeps_settings APIClient.close /\
   (forall method endpoint params,
      method_keeps_settings (APIClient._make_request method endpoint params)) /\
   (forall q n, method_keeps_settings (APIClient.search q n)) /\
   (forall i, method_keeps_settings (APIClient.get_details i)) /\
   method_keeps_settings APIClient.list_categories /\
   (forall n, method_keeps_settings (APIClient.get_popular_items n)) /\
   (forall c n, method_keeps_settings (APIClient.get_items_by_category c n))) /\
  (run_uses_settings self (search_items query limit) (with_environ env w) /\
   run_uses_settings self (get_item_details item_id) (with_environ env w) /\
   run_uses_settings self list_categories (with_environ env w) /\
   run_uses_settings self (get_popular_items limit category) (with_environ env w)) /\
  global_client (snd (cleanup_api_client (with_environ env w))) = None /\
  global_client (snd ((cleanup_api_client;; get_api_client) (with_environ env w)))
    = Some {| base_url := Settings.api_base_url env; api_key := key; _client := None |}.
Proof.
  intros Hg Hkey Hne.
  pose proof (init_with_key env key Hkey Hne) as Hinit.
  pose proof (same_config_with_environ self env w Hg) as Hsame.
  split; [exact Hinit|]. split; [|split].
  - split; [apply get_client_keeps_settings|]. split; [apply close_keeps_settings|].
    unfold APIClient.search, APIClient.get_details, APIClient.list_categories,
      APIClient.get_popular_items, APIClient.get_items_by_category.
    split; [intros; simple apply make_request_keeps_settings|].
    split; [intros; simple apply make_request_keeps_settings|].
    split; [intros; simple apply make_request_keeps_settings|].
    split; [simple apply make_request_keeps_settings|].
    split; intros; simple apply make_request_keeps_settings.
  - split; [apply search_items_uses_settings; exact Hsame|].
    split; [apply get_item_details_uses_settings; exact Hsame|].
    split; [apply list_categories_uses_settings; exact Hsame|].
    apply get_popular_items_uses_settings; exact Hsame.
  - rewrite bind_run, cleanup_api_client_run. cbn [with_environ global_client].
    rewrite Hg. cbn [snd global_client]. split; [reflexivity|].
    rewrite get_api_client_run. cbn [global_client environ snd].
    change (environ (with_environ env w)) with env. rewrite Hinit. reflexivity.
Qed.

Lemma settings_fixed_at_construction_witness :
  run_uses_settings Sample.instance (search_items "coffee" 5)
    (with_environ Sample.changed_environ (with_client Sample.instance Sample.foo_world)) /\
  global_client
    (snd ((cleanup_api_client;; get_api_client)
            (with_environ Sample.changed_environ
               (with_client Sample.instance Sample.foo_world))))
  = Some {| base_url := "https://elsewhere.example/v2"; api_key := "other";
            _client := None |}.
Proof.
  destruct (settings_fixed_at_construction
              (with_client Sample.instance Sample.foo_world) Sample.instance
              Sample.changed_environ "other" "coffee" 5 "9" None
              eq_refl eq_refl ltac:(discriminate))
    as (_ & _ & (Hsearch & _) & _ & Hfresh).
  split; [exact Hsearch | exact Hfresh].
Defined.

(** The same, computed: with the environment changed, the request still
    goes to the old base URL with the old key. *)
Example request_after_environment_change :
  outbox (network (snd (search_items "coffee" 5
     (with_environ Sample.changed_environ
        (with_client Sample.instance Sample.foo_world)))))
  = [{| req_method := "GET"; req_url := "https://api.example.com/v1/search";
        req_params := [("q", VStr "coffee"); ("limit", VInt 5);
                       ("api_key", VStr "secret")] |}].
Proof. vm_compute. reflexivity. Qed.

(** ** Every run keeps the world consistent

    The hypotheses [consistent] and [world_ok] of the theorems above hold
    when the process starts and after whatever the tools and the shutdown
    hook have done since. *)

Lemma ok_mret {A} (a : A) : keeps_world_ok (mret a : M World A).
Proof. by intros w H. Qed.

Lemma ok_lift {A} (o : outcome A) : keeps_world_ok (lift o : M World A).
Proof. by intros w H. Qed.

Lemma ok_logger_error msg : keeps_world_ok (logger_error msg).
Proof. by intros w H. Qed.

Lemma ok_get_api_client : keeps_world_ok get_api_client.
Proof.
  intros w [Hnet Hholds]. rewrite get_api_client_run.
  destruct (global_client w) as [c|] eqn:Hg; cbn [snd].
  - split; [exact Hnet | by rewrite Hg].
  - unfold APIClient.__init__.
    destruct (Settings.api_key (environ w)); cbn; split; try done.
    by rewrite Hg.
Qed.

Lemma ok_invoke {A} (m : Method A) client :
  method_keeps_consistent m -> keeps_world_ok (invoke client m).
Proof.
  intros Hm w [Hnet Hholds]. destruct client.
  destruct (global_client w) as [c|] eqn:Hg.
  - rewrite (invoke_run _ _ c Hg). cbn [snd]. exact (Hm c (network w) (conj Hnet Hholds)).
  - unfold invoke. rewrite Hg. cbn [snd]. split; [exact Hnet | by rewrite Hg].
Qed.

Lemma ok_bind {A B} (m : M World A) (f : A -> M World B) :
  keeps_world_ok m -> (forall a, keeps_world_ok (f a)) -> keeps_world_ok (m ≫= f).
Proof.
  intros Hm Hf w H. rewrite bind_run. specialize (Hm w H).
  destruct (m w) as [[a|e] w1]; cbn [snd] in *; [by apply Hf | exact Hm].
Qed.

Lemma ok_try_except (body : M World value) pl po wrap :
  keeps_world_ok body -> keeps_world_ok (try_except body (except_Exception pl po wrap)).
Proof.
  intros Hbody w H. rewrite try_except_Exception. specialize (Hbody w H).
  destruct (body w) as [[v|e] w1]; cbn [snd] in *; exact Hbody.
Qed.

Lemma make_request_keeps_consistent method endpoint params :
  method_keeps_consistent (APIClient._make_request method endpoint params).
Proof. intros self net. apply make_request_consistent. Qed.

Create HintDb world_ok.

#[local] Hint Resolve ok_mret ok_lift ok_logger_error ok_get_api_client ok_invoke
  make_request_keeps_consistent : world_ok.

Ltac keeps_ok :=
  repeat first
    [ solve [eauto with world_ok]
    | simple apply ok_try_except
    | simple apply ok_bind
    | intro ].

Lemma search_items_keeps_ok query limit : keeps_world_ok (search_items query limit).
Proof. unfold search_items, search_items_try, APIClient.search. keeps_ok. Qed.

Lemma get_item_details_keeps_ok item_id : keeps_world_ok (get_item_details item_id).
Proof. unfold get_item_details, get_item_details_try, APIClient.get_details. keeps_ok. Qed.

Lemma list_categories_keeps_ok : keeps_world_ok list_categories.
Proof. unfold list_categories, list_categories_try, APIClient.list_categories. keeps_ok. Qed.

Lemma get_popular_items_keeps_ok limit category :
  keeps_world_ok (get_popular_items limit category).
Proof.
  unfold get_popular_items, get_popular_items_try, popular_items_of,
    APIClient.list_categories, APIClient.get_popular_items,
    APIClient.get_items_by_category.
  apply ok_try_except, ok_bind; [apply ok_get_api_client|]. intros client.
  destruct (given category) as [c|].
  - apply ok_bind; [eauto with world_ok|]. intros listing.
    apply ok_bind; [eauto with world_ok|]. intros category_id.
    destruct (truthy category_id); keeps_ok.
  - keeps_ok.
Qed.

Lemma cleanup_keeps_ok : keeps_world_ok cleanup.
Proof.
  intros w [Hnet Hholds]. unfold cleanup. rewrite cleanup_api_client_run.
  destruct (global_client w) as [c|] eqn:Hg; cbn [snd].
  - split; [|exact I]. cbn [network]. by apply close_consistent.
  - split; [exact Hnet | by rewrite Hg].
Qed.

(** * More of the client wrapper *)

(** ** What [_make_request] makes of the other answers *)

(** X1. A transport failure becomes the domain error with the message of
    the failure after [Request failed: ], and the request is not sent a
    second time. *)
Theorem transport_failure_is_api_error self net method endpoint params msg :
  consistent self net ->
  upstream net (outbox net) (APIClient.outgoing self method endpoint params) = inl msg ->
  result_of (APIClient._make_request method endpoint params) self net
    = Raise (APIError ("Request failed: " +:+ msg)) /\
  issued net (net_after (APIClient._make_request method endpoint params) self net)
    = [APIClient.outgoing self method endpoint params].
Proof.
  intros Hcons Hup. split; [|by apply make_request_issued].
  unfold result_of. rewrite make_request_run by done. cbn zeta. cbn [fst].
  by rewrite Hup.
Qed.

Lemma transport_failure_is_api_error_witness :
  result_of (APIClient._make_request "GET" "/search" None) Sample.instance
    (Sample.net (fun _ _ => inl "timed out"))
  = Raise (APIError "Request failed: timed out").
Proof.
  exact (proj1 (transport_failure_is_api_error Sample.instance
                  (Sample.net (fun _ _ => inl "timed out")) "GET" "/search" None
                  "timed out" (sample_consistent _) eq_refl)).
Defined.

(** X2. A response with a status from 200 to 299 gives the decoded body;
    when the body is not JSON the error of the decoder leaves
    [_make_request] as it is, not as a domain error. *)
Theorem success_returns_decoded_body self net method endpoint params response :
  consistent self net ->
  upstream net (outbox net) (APIClient.outgoing self method endpoint params) = inr response ->
  200 <= status_code response <= 299 ->
  result_of (APIClient._make_request method endpoint params) self net
    = match json_body response with
      | inr v => Return v
      | inl msg => Raise (JSONDecodeError msg)
      end.
Proof.
  intros Hcons Hup Hst.
  unfold result_of. rewrite make_request_run by done. cbn zeta. cbn [fst].
  rewrite Hup. unfold reply, httpx.json.
  replace (200 <=? status_code response) with true by lia.
  by replace (status_code response <=? 299) with true by lia.
Qed.

Lemma success_returns_decoded_body_witness :
  result_of (APIClient._make_request "GET" "/search" None) Sample.instance
    (Sample.net (fun _ _ => Sample.status 200 "<html>"))
  = Raise (JSONDecodeError "Expecting value: line 1 column 1 (char 0)").
Proof.
  exact (success_returns_decoded_body Sample.instance
           (Sample.net (fun _ _ => Sample.status 200 "<html>")) "GET" "/search" None
           {| status_code := 200; text := "<html>";
              json_body := inl "Expecting value: line 1 column 1 (char 0)" |}
           (sample_consistent _) eq_refl ltac:(cbn; lia)).
Defined.

Lemma make_request_no_transport self net method endpoint params :
  no_transport_error (fst (APIClient._make_request method endpoint params (self, net))).
Proof.
  unfold APIClient._make_request.
  rewrite bind_run, get_client_run.
  destruct (_client self) as [h|] eqn:Hc; cbn zeta; cbn [fst snd];
    unfold APIClient.get_self; rewrite bind_run; cbn beta iota zeta;
    unfold try_except, APIClient.on_net; rewrite bind_run; cbn [fst snd];
    unfold httpx.request; case_bool_decide; cbn [fst snd]; try exact I;
    unfold httpx.raise_for_status; unfold_monad;
    cbn [req_method req_url req_params outbox upstream];
    match goal with
    | |- context [upstream ?n ?o ?r] => destruct (upstream n o r); cbn; [exact I|]
    end;
    match goal with
    | |- context [(200 <=? ?c) && (?c <=? 299)] =>
        destruct ((200 <=? c) && (c <=? 299)); cbn;
        [ unfold httpx.json;
          match goal with |- context [json_body ?r] => destruct (json_body r) end;
          exact I
        | destruct (c =? 404); [exact I|];
          destruct (c =? 401); [exact I|];
          destruct (c =? 429); exact I ]
    end.
Qed.

(** X3. Neither error of the transport library leaves [_make_request]:
    whatever upstream answers, and whatever the state of the instance and
    of its pooled client, what [_make_request] raises is not an
    [HTTPStatusError] and not a [RequestError]. *)
Theorem transport_errors_stay_inside self net method endpoint params :
  no_transport_error
    (result_of (APIClient._make_request method endpoint params) self net).
Proof. apply make_request_no_transport. Qed.

(** ** The URL and the parameters *)

Lemma lstrip_slashes n s : lstrip_slash (slashes n s) = lstrip_slash s.
Proof. induction n as [|n IH]; [reflexivity | exact IH]. Qed.

Lemma lstrip_slash_no_slash s rest : lstrip_slash s <> String "/"%char rest.
Proof.
  unfold lstrip_slash. induction s as [|c s IH]; cbn [lstrip_with]; [discriminate|].
  destruct (Ascii.eqb "/"%char c) eqn:Hc; [exact IH|].
  intros [= -> _]. by rewrite Ascii.eqb_refl in Hc.
Qed.

(** X4. However many slashes an endpoint starts with, the request is the
    same: the URL is the base URL, one slash, and the endpoint without its
    leading slashes. *)
Theorem leading_slashes_do_not_matter self net method endpoint params n :
  consistent self net ->
  issued net (net_after (APIClient._make_request method (slashes n endpoint) params) self net)
  = issued net (net_after (APIClient._make_request method endpoint params) self net) /\
  exists path req,
    issued net (net_after (APIClient._make_request method endpoint params) self net) = [req] /\
    req_url req = base_url self +:+ "/" +:+ path /\
    (forall rest, path <> String "/"%char rest) /\
    exists k, endpoint = slashes k path.
Proof.
  intros Hcons. rewrite !make_request_issued by done. split.
  - unfold APIClient.outgoing. by rewrite lstrip_slashes.
  - exists (lstrip_slash endpoint), (APIClient.outgoing self method endpoint params).
    split; [reflexivity|]. split; [reflexivity|].
    split; [apply lstrip_slash_no_slash|].
    unfold lstrip_slash. induction endpoint as [|c e IH].
    + by exists 0%nat.
    + cbn [lstrip_with]. destruct (Ascii.eqb_spec "/"%char c) as [<-|Hne].
      * destruct IH as [k Hk]. exists (S k). cbn [slashes]. by rewrite <- Hk.
      * by exists 0%nat.
Qed.

Lemma leading_slashes_do_not_matter_witness :
  issued (Sample.net (fun _ _ => Sample.ok_json Sample.one_foo))
    (net_after (APIClient._make_request "GET" (slashes 2 "search") None)
       Sample.instance (Sample.net (fun _ _ => Sample.ok_json Sample.one_foo)))
  = issued (Sample.net (fun _ _ => Sample.ok_json Sample.one_foo))
      (net_after (APIClient._make_request "GET" "search" None)
         Sample.instance (Sample.net (fun _ _ => Sample.ok_json Sample.one_foo))).
Proof.
  exact (proj1 (leading_slashes_do_not_matter Sample.instance
                  (Sample.net (fun _ _ => Sample.ok_json Sample.one_foo))
                  "GET" "search" None 2 (sample_consistent _))).
Defined.

Lemma dict_lookup_set_other k k' v d :
  k <> k' -> dict_lookup k' (dict_set k v d) = dict_lookup k' d.
Proof.
  intros Hne. induction d as [|[k0 v0] d IH]; cbn [dict_set dict_lookup].
  - by rewrite (proj2 (String.eqb_neq k' k)).
  - destruct (String.eqb_spec k k0) as [<-|Hk0]; cbn [dict_lookup].
    + by rewrite (proj2 (String.eqb_neq k' k)).
    + by rewrite IH.
Qed.

(** X5. The key of the instance is the [api_key] parameter of the request
    even when the caller passed one of its own, and every other parameter
    of the caller goes out as it came. *)
Theorem api_key_parameter_overrides self net method endpoint params name :
  consistent self net ->
  name <> "api_key" ->
  exists req,
    issued net (net_after (APIClient._make_request method endpoint (Some params)) self net)
      = [req] /\
    dict_lookup "api_key" (req_params req) = Some (VStr (api_key self)) /\
    dict_lookup name (req_params req) = dict_lookup name params.
Proof.
  intros Hcons Hname. eexists. split; [by apply make_request_issued|].
  cbn [APIClient.outgoing req_params default]. split; [apply dict_lookup_set|].
  apply dict_lookup_set_other. congruence.
Qed.

Lemma api_key_parameter_overrides_witness :
  exists req,
    issued (Sample.net (fun _ _ => Sample.ok_json Sample.one_foo))
      (net_after (APIClient._make_request "GET" "/search"
                    (Some [("api_key", VStr "mine"); ("q", VStr "tea")]))
         Sample.instance (Sample.net (fun _ _ => Sample.ok_json Sample.one_foo)))
      = [req] /\
    dict_lookup "api_key" (req_params req) = Some (VStr "secret") /\
    dict_lookup "q" (req_params req) = Some (VStr "tea").
Proof.
  exact (api_key_parameter_overrides Sample.instance
           (Sample.net (fun _ _ => Sample.ok_json Sample.one_foo)) "GET" "/search"
           [("api_key", VStr "mine"); ("q", VStr "tea")] "q"
           (sample_consistent _) ltac:(discriminate)).
Defined.

(** ** The pooled client over time *)

(** X6. After [close], the next request constructs one new pooled client,
    with an identity of its own, and goes out through it; the closed one
    is on record as released. *)
Theorem reconnect_after_close self net h method endpoint params :
  consistent self net ->
  _client self = Some h ->
  let self1 := self_after APIClient.close self net in
  let net1 := net_after APIClient.close self net in
  let self2 := self_after (APIClient._make_request method endpoint params) self1 net1 in
  let net2 := net_after (APIClient._make_request method endpoint params) self1 net1 in
  _client self1 = None /\
  released net1 = handle_id h :: released net /\
  constructed net2 = S (constructed net) /\
  released net2 = released net1 /\
  issued net1 net2 = [APIClient.outgoing self method endpoint params] /\
  exists h', _client self2 = Some h' /\
             handle_id h' <> handle_id h /\
             handle_id h' ∉ released net2.
Proof.
  intros Hcons Hh self1 net1 self2 net2.
  pose proof (close_consistent self net Hcons) as Hcons1. fold self1 net1 in Hcons1.
  assert (Hself1 : self1 = {| base_url := base_url self; api_key := api_key self;
                              _client := None |}).
  { unfold self1, self_after. by rewrite close_run, Hh. }
  assert (Hnet1 : net1 = {| constructed := constructed net;
                            released := handle_id h :: released net;
                            outbox := outbox net; upstream := upstream net |}).
  { unfold net1, net_after. rewrite close_run, Hh. cbn [snd]. unfold httpx.aclose.
    cbn [snd]. destruct Hcons as [_ Hholds]. unfold holds_ok in Hholds.
    rewrite Hh in Hholds. by rewrite bool_decide_eq_false_2 by tauto. }
  assert (Hstate : (self2, net2) =
            ({| base_url := base_url self; api_key := api_key self;
                _client := Some {| handle_id := constructed net; timeout := 30;
                                   max_connections := 10;
                                   max_keepalive_connections := 5;
                                   headers := [("User-Agent", "Your MCP Server/1.0.0")] |} |},
             sent (APIClient.outgoing self1 method endpoint params)
               {| constructed := S (constructed net);
                  released := handle_id h :: released net;
                  outbox := outbox net; upstream := upstream net |})).
  { unfold self2, net2, self_after, net_after.
    rewrite make_request_run by exact Hcons1. cbn zeta. cbn [snd fst].
    rewrite get_client_run. rewrite Hself1, Hnet1. reflexivity. }
  injection Hstate as Hself2 Hnet2.
  destruct Hcons as [Hnet Hholds]. unfold holds_ok in Hholds. rewrite Hh in Hholds.
  split; [by rewrite Hself1|]. split; [by rewrite Hnet1|].
  split; [by rewrite Hnet2|]. split; [by rewrite Hnet2, Hnet1|].
  split.
  { rewrite Hnet2. unfold issued, sent. cbn [outbox]. rewrite Hnet1. cbn [outbox].
    rewrite drop_app_length. unfold APIClient.outgoing. by rewrite Hself1. }
  eexists. split; [by rewrite Hself2|]. cbn [handle_id]. split; [lia|].
  rewrite Hnet2. cbn [sent released]. intros Hin.
  apply elem_of_cons in Hin as [Heq|Hin]; [lia|].
  by apply (fresh_not_released net Hnet).
Qed.

Lemma connected_consistent up :
  consistent (self_after APIClient.get_client Sample.instance (Sample.net up))
             (net_after APIClient.get_client Sample.instance (Sample.net up)).
Proof. apply get_client_consistent, sample_consistent. Qed.

Lemma reconnect_after_close_witness :
  constructed
    (net_after (APIClient._make_request "GET" "/search" None)
       (self_after APIClient.close
          (self_after APIClient.get_client Sample.instance (Sample.net (fun _ _ => inl "down")))
          (net_after APIClient.get_client Sample.instance (Sample.net (fun _ _ => inl "down"))))
       (net_after APIClient.close
          (self_after APIClient.get_client Sample.instance (Sample.net (fun _ _ => inl "down")))
          (net_after APIClient.get_client Sample.instance (Sample.net (fun _ _ => inl "down")))))
  = 2%nat.
Proof.
  destruct (reconnect_after_close
              (self_after APIClient.get_client Sample.instance
                 (Sample.net (fun _ _ => inl "down")))
              (net_after APIClient.get_client Sample.instance
                 (Sample.net (fun _ _ => inl "down")))
              {| handle_id := 0; timeout := 30; max_connections := 10;
                 max_keepalive_connections := 5;
                 headers := [("User-Agent", "Your MCP Server/1.0.0")] |}
              "GET" "/search" None (connected_consistent _) eq_refl)
    as (_ & _ & Hconstructed & _).
  exact Hconstructed.
Defined.

(** X7. Once [get_api_client] has succeeded, the cell holds the instance
    the world had or could build, and every later call returns with the
    world as it is, whatever the environment holds by then. *)
Theorem get_api_client_keeps_first_instance w r w1 env :
  get_api_client w = (Return r, w1) ->
  exists self,
    instance_of w = Return self /\
    w1 = with_client self w /\
    get_api_client (with_environ env w1) = (Return TheClient, with_environ env w1).
Proof.
  intros Hrun. rewrite get_api_client_run in Hrun. unfold instance_of.
  destruct (global_client w) as [c|] eqn:Hg.
  - injection Hrun as _ <-. exists c. split; [reflexivity|].
    split; [unfold with_client; rewrite <- Hg; by destruct w|].
    rewrite get_api_client_run. cbn [with_environ global_client]. by rewrite Hg.
  - destruct (APIClient.__init__ (environ w)) as [c|e]; [|discriminate].
    injection Hrun as _ <-. exists c. split; [reflexivity|]. split; [reflexivity|].
    by rewrite get_api_client_run.
Qed.

Lemma get_api_client_keeps_first_instance_witness :
  get_api_client (with_environ ∅ (with_client Sample.instance Sample.foo_world))
  = (Return TheClient, with_environ ∅ (with_client Sample.instance Sample.foo_world)).
Proof.
  destruct (get_api_client_keeps_first_instance Sample.foo_world TheClient
              (with_client Sample.instance Sample.foo_world) ∅ eq_refl)
    as (self & _ & _ & Hagain).
  exact Hagain.
Defined.

(** ** One pooled client for all tools *)

Lemma get_client_pool : method_pool_discipline APIClient.get_client.
Proof.
  intros self net. unfold self_after, net_after. rewrite get_client_run.
  destruct (_client self) as [h|] eqn:Hc; cbn [fst snd constructed released _client].
  - split; [reflexivity|]. split; [lia|]. split; [by rewrite Hc|lia].
  - split; [reflexivity|]. split; [lia|]. split; [by intros [? [=]] | by eexists].
Qed.

Lemma make_request_pool method endpoint params :
  method_pool_discipline (APIClient._make_request method endpoint params).
Proof.
  intros self net. pose proof (get_client_pool self net) as Hget.
  unfold self_after, net_after in *. rewrite make_request_state.
  cbn [fst snd] in *. destruct (refused self net); [exact Hget|exact Hget].
Qed.

Lemma pool_mret {A} (a : A) : pool_discipline (mret a : M World A).
Proof. intros w. cbn. repeat split; lia. Qed.

Lemma pool_lift {A} (o : outcome A) : pool_discipline (lift o : M World A).
Proof. intros w. cbn. repeat split; lia. Qed.

Lemma pool_logger_error msg : pool_discipline (logger_error msg).
Proof. intros w. cbn. repeat split; lia. Qed.

Lemma pool_get_api_client : pool_discipline get_api_client.
Proof.
  intros w. rewrite get_api_client_run. unfold pooled.
  destruct (global_client w) as [c|] eqn:Hg; cbn [snd].
  - rewrite Hg. repeat split; lia.
  - destruct (APIClient.__init__ (environ w)) as [c|e] eqn:Hinit; cbn.
    + split; [reflexivity|]. split; [lia|]. split; [by intros [? [=]] | lia].
    + rewrite Hg. repeat split; lia.
Qed.

Lemma pool_invoke {A} (m : Method A) client :
  method_pool_discipline m -> pool_discipline (invoke client m).
Proof.
  intros Hm w. destruct client. unfold pooled.
  destruct (global_client w) as [c|] eqn:Hg.
  - rewrite (invoke_run _ _ c Hg). cbn [snd network global_client].
    exact (Hm c (network w)).
  - unfold invoke. rewrite Hg. cbn [snd]. rewrite Hg. repeat split; lia.
Qed.

Lemma pool_bind {A B} (m : M World A) (f : A -> M World B) :
  pool_discipline m -> (forall a, pool_discipline (f a)) -> pool_discipline (m ≫= f).
Proof.
  intros Hm Hf w. cbn zeta. rewrite bind_run.
  destruct (Hm w) as (Hr & Hc & Hkeep & Hnew).
  destruct (m w) as [[a|e] w1]; cbn [snd] in *;
    [|exact (conj Hr (conj Hc (conj Hkeep Hnew)))].
  destruct (Hf a w1) as (Hr' & Hc' & Hkeep' & Hnew').
  split; [congruence|]. split; [|split].
  - destruct (decide (constructed (network w1) = S (constructed (network w)))) as [H1|H1].
    + destruct (Hkeep' (Hnew H1)) as [_ Heq]. lia.
    + lia.
  - intros Hsome. destruct (Hkeep Hsome) as [Hp Hn].
    assert (Hsome1 : is_Some (pooled w1)) by (by rewrite Hp).
    destruct (Hkeep' Hsome1) as [Hp' Hn']. split; congruence.
  - intros Hgrown.
    destruct (decide (constructed (network w1) = S (constructed (network w)))) as [H1|H1].
    + destruct (Hkeep' (Hnew H1)) as [Hp' _]. rewrite Hp'. by apply Hnew.
    + apply Hnew'. lia.
Qed.

Lemma pool_try_except (body : M World value) pl po wrap :
  pool_discipline body -> pool_discipline (try_except body (except_Exception pl po wrap)).
Proof.
  intros Hbody w. cbn zeta. rewrite try_except_Exception. specialize (Hbody w).
  destruct (body w) as [[v|e] w1]; cbn [snd] in *; exact Hbody.
Qed.

Create HintDb pool.

#[local] Hint Resolve pool_mret pool_lift pool_logger_error pool_get_api_client
  pool_invoke make_request_pool : pool.

Ltac pool_steps :=
  repeat first
    [ solve [eauto with pool]
    | simple apply pool_try_except
    | simple apply pool_bind
    | intro ].

Lemma get_popular_items_pool limit category :
  pool_discipline (get_popular_items limit category).
Proof.
  unfold get_popular_items, get_popular_items_try, popular_items_of,
    APIClient.list_categories, APIClient.get_popular_items,
    APIClient.get_items_by_category.
  apply pool_try_except, pool_bind; [apply pool_get_api_client|]. intros client.
  destruct (given category) as [c|].
  - apply pool_bind; [eauto with pool|]. intros listing.
    apply pool_bind; [eauto with pool|]. intros category_id.
    destruct (truthy category_id); pool_steps.
  - pool_steps.
Qed.

(** X8. No tool closes a pooled client, and each constructs at most one:
    none when the stored instance holds one already, which it goes on
    holding. So the calls that follow the first all go through the same
    pooled client. *)
Theorem tools_reuse_the_pooled_client query limit item_id category :
  pool_discipline (search_items query limit) /\
  pool_discipline (get_item_details item_id) /\
  pool_discipline list_categories /\
  pool_discipline (get_popular_items limit category).
Proof.
  split; [|split; [|split]].
  - unfold search_items, search_items_try, APIClient.search. pool_steps.
  - unfold get_item_details, get_item_details_try, APIClient.get_details. pool_steps.
  - unfold list_categories, list_categories_try, APIClient.list_categories. pool_steps.
  - apply get_popular_items_pool.
Qed.

(** Two searches and a category lookup in a row: one pooled client. *)
Example three_calls_one_pooled_client :
  constructed (network (snd ((search_items "tea" 5;; search_items "coffee" 5;;
                               get_popular_items 5 (Some "food")) Sample.foo_world)))
  = 1%nat.
Proof. vm_compute. reflexivity. Qed.

(** ** The world stays consistent *)

(** X9. A process starts in a consistent world, and the four tools and
    the shutdown hook keep it so: the instance in the cell never holds a
    pooled client that has been closed. *)
Theorem world_stays_consistent up query limit item_id category :
  world_ok (Sample.fresh up) /\
  keeps_world_ok (search_items query limit) /\
  keeps_world_ok (get_item_details item_id) /\
  keeps_world_ok list_categories /\
  keeps_world_ok (get_popular_items limit category) /\
  keeps_world_ok cleanup.
Proof.
  split; [apply fresh_world_ok|].
  split; [apply search_items_keeps_ok|].
  split; [apply get_item_details_keeps_ok|].
  split; [apply list_categories_keeps_ok|].
  split; [apply get_popular_items_keeps_ok | apply cleanup_keeps_ok].
Qed.

(** ** What a tool logs, and what it leaves alone *)

Lemma quiet_mret {A} (a : A) : quiet (mret a : M World A).
Proof. by intros w. Qed.

Lemma quiet_lift {A} (o : outcome A) : quiet (lift o : M World A).
Proof. by intros w. Qed.

Lemma quiet_get_api_client : quiet get_api_client.
Proof.
  intros w. rewrite get_api_client_run.
  destruct (global_client w); [done|].
  by destruct (APIClient.__init__ (environ w)).
Qed.

Lemma quiet_invoke {A} (m : Method A) client : quiet (invoke client m).
Proof.
  intros w. unfold invoke. destruct (global_client w) as [c|]; [|done].
  by destruct (m (c, network w)).
Qed.

Lemma quiet_bind {A B} (m : M World A) (f : A -> M World B) :
  quiet m -> (forall a, quiet (f a)) -> quiet (m ≫= f).
Proof.
  intros Hm Hf w. rewrite bind_run. destruct (Hm w) as [Hl He].
  destruct (m w) as [[a|e] w1]; cbn [snd] in *; [|done].
  destruct (Hf a w1) as [Hl' He']. split; congruence.
Qed.

Create HintDb quiet.

#[local] Hint Resolve quiet_mret quiet_lift quiet_get_api_client quiet_invoke : quiet.

Ltac quiet_steps :=
  repeat first [ solve [eauto with quiet] | simple apply quiet_bind | intro ].

Lemma tool_logs_failures (body : M World value) pl po wrap :
  quiet body -> logs_failures body (try_except body (except_Exception pl po wrap)) pl.
Proof.
  intros Hbody w. rewrite try_except_Exception. destruct (Hbody w) as [Hl He].
  destruct (body w) as [[v|e] w1]; cbn [fst snd] in *; [done|].
  cbn. by rewrite Hl, He.
Qed.

Lemma get_popular_items_try_quiet limit category :
  quiet (get_popular_items_try limit category).
Proof.
  unfold get_popular_items_try, popular_items_of.
  apply quiet_bind; [apply quiet_get_api_client|]. intros client.
  destruct (given category) as [c|].
  - apply quiet_bind; [apply quiet_invoke|]. intros listing.
    apply quiet_bind; [apply quiet_lift|]. intros category_id.
    destruct (truthy category_id); quiet_steps.
  - quiet_steps.
Qed.

(** X10. A tool writes to the log only when its [try] block raised, and
    then one line: the message of the exception after the prefix of the
    tool, which for [get_item_details] names the item. No tool changes the
    environment. *)
Theorem tools_log_one_line_per_failure query limit item_id category :
  logs_failures (search_items_try query limit) (search_items query limit)
    "Search failed: " /\
  logs_failures (get_item_details_try item_id) (get_item_details item_id)
    ("Failed to get details for " +:+ item_id +:+ ": ") /\
  logs_failures list_categories_try list_categories "Failed to list categories: " /\
  logs_failures (get_popular_items_try limit category)
    (get_popular_items limit category) "Failed to get popular items: ".
Proof.
  split; [|split; [|split]]; apply tool_logs_failures.
  - unfold search_items_try. quiet_steps.
  - unfold get_item_details_try. quiet_steps.
  - unfold list_categories_try. quiet_steps.
  - apply get_popular_items_try_quiet.
Qed.

Example get_item_details_log_line :
  log (snd (get_item_details "9" (Sample.fresh (fun _ _ => Sample.status 404 "gone"))))
  = ["Failed to get details for 9: Not found: /items/9"].
Proof. vm_compute. reflexivity. Qed.

(** ** The settings no tool reads *)

Lemma init_reads_two (env1 env2 : gmap string string) :
  env1 !! "API_KEY" = env2 !! "API_KEY" ->
  env1 !! "API_BASE_URL" = env2 !! "API_BASE_URL" ->
  APIClient.__init__ env1 = APIClient.__init__ env2.
Proof.
  intros Hk Hb. unfold APIClient.__init__, Settings.api_key, Settings.api_base_url.
  by rewrite Hk, Hb.
Qed.

Lemma client_settings_are_used :
  ("API_KEY" ∉ unused_settings) /\ ("API_BASE_URL" ∉ unused_settings).
Proof.
  split; intros H;
    repeat (apply elem_of_cons in H as [H|H]; [discriminate|]);
    exact (proj1 (elem_of_nil _) H).
Qed.

Lemma ignores_mret {A} (a : A) : ignores_unused_settings (mret a : M World A).
Proof. by intros w1 w2 H. Qed.

Lemma ignores_lift {A} (o : outcome A) : ignores_unused_settings (lift o : M World A).
Proof. by intros w1 w2 H. Qed.

Lemma ignores_logger_error msg : ignores_unused_settings (logger_error msg).
Proof.
  intros w1 w2 (Henv & Hg & Hn & Hl). split; [reflexivity|].
  unfold same_but_unused_settings. cbn. by rewrite Hl.
Qed.

Lemma ignores_get_api_client : ignores_unused_settings get_api_client.
Proof.
  intros w1 w2 Hsame. pose proof Hsame as (Henv & Hg & Hn & Hl).
  destruct client_settings_are_used as [Hk Hb].
  rewrite !get_api_client_run, Hg.
  destruct (global_client w2) as [c|]; [by split|].
  rewrite (init_reads_two _ _ (Henv _ Hk) (Henv _ Hb)).
  destruct (APIClient.__init__ (environ w2)) as [c|e]; [|by split].
  split; [reflexivity|]. unfold same_but_unused_settings. cbn. by rewrite Hn, Hl.
Qed.

Lemma ignores_invoke {A} (m : Method A) client :
  ignores_unused_settings (invoke client m).
Proof.
  intros w1 w2 Hsame. pose proof Hsame as (Henv & Hg & Hn & Hl).
  unfold invoke. rewrite Hg, Hn.
  destruct (global_client w2) as [c|]; [|by split].
  destruct (m (c, network w2)) as [r st]. split; [reflexivity|].
  unfold same_but_unused_settings. cbn. by rewrite Hl.
Qed.

Lemma ignores_bind {A B} (m : M World A) (f : A -> M World B) :
  ignores_unused_settings m -> (forall a, ignores_unused_settings (f a)) ->
  ignores_unused_settings (m ≫= f).
Proof.
  intros Hm Hf w1 w2 H. rewrite !bind_run. destruct (Hm w1 w2 H) as [Hr Hs].
  destruct (m w1) as [r1 u1], (m w2) as [r2 u2]. cbn [fst snd] in *. subst r2.
  destruct r1 as [a|e]; [by apply Hf | done].
Qed.

Lemma ignores_try_except (body : M World value) pl po wrap :
  ignores_unused_settings body ->
  ignores_unused_settings (try_except body (except_Exception pl po wrap)).
Proof.
  intros Hbody w1 w2 H. rewrite !try_except_Exception.
  destruct (Hbody w1 w2 H) as [Hr Hs].
  destruct (body w1) as [r1 u1], (body w2) as [r2 u2]. cbn [fst snd] in *. subst r2.
  destruct r1 as [v|e]; [done|]. split; [reflexivity|].
  by apply ignores_logger_error.
Qed.

Create HintDb ignores.

#[local] Hint Resolve ignores_mret ignores_lift ignores_logger_error ignores_get_api_client
  ignores_invoke : ignores.

Ltac ignores_steps :=
  repeat first
    [ solve [eauto with ignores]
    | simple apply ignores_try_except
    | simple apply ignores_bind
    | intro ].

Lemma get_popular_items_ignores limit category :
  ignores_unused_settings (get_popular_items limit category).
Proof.
  unfold get_popular_items, get_popular_items_try, popular_items_of.
  apply ignores_try_except, ignores_bind; [apply ignores_get_api_client|]. intros client.
  destruct (given category) as [c|].
  - apply ignores_bind; [apply ignores_invoke|]. intros listing.
    apply ignores_bind; [apply ignores_lift|]. intros category_id.
    destruct (truthy category_id); ignores_steps.
  - ignores_steps.
Qed.

(** X11. The variables [API_TIMEOUT], [MAX_RESULTS] and [CACHE_TTL] have
    no effect on a tool: in two worlds whose environments agree on every
    other variable it returns the same, sends the same and logs the same,
    and leaves worlds that again differ at most in those three. *)
Theorem tools_ignore_unused_settings query limit item_id category :
  ignores_unused_settings (search_items query limit) /\
  ignores_unused_settings (get_item_details item_id) /\
  ignores_unused_settings list_categories /\
  ignores_unused_settings (get_popular_items limit category).
Proof.
  split; [|split; [|split]].
  - unfold search_items, search_items_try. ignores_steps.
  - unfold get_item_details, get_item_details_try. ignores_steps.
  - unfold list_categories, list_categories_try. ignores_steps.
  - apply get_popular_items_ignores.
Qed.

Example max_results_is_not_consulted :
  limit_of <$> outbox (network (snd (search_items "tea" 40
     (with_environ (<["MAX_RESULTS" := "10"]> (<["API_KEY" := "secret"]> ∅))
        Sample.foo_world))))
  = [Some (VInt 40)].
Proof. vm_compute. reflexivity. Qed.

(** * More of the tools *)

(** ** Reshaping one object *)

Lemma search_item_info_object item :
  text_or_absent "description" item = true ->
  search_item_info item = Return (search_record item).
Proof.
  destruct item as [| | | | |l|d]; try discriminate. intros Hd.
  unfold search_item_info, search_record, first_true, or_none, or_else, stripped.
  cbn [py_get py_get_default field text_or_absent mbind outcome_bind] in *.
  unfold py_or.
  destruct (dict_lookup "description" d) as [[| | | |s| |]|]; try discriminate;
    destruct (truthy (default VNone (dict_lookup "title" d))); reflexivity.
Qed.

Lemma search_item_info_other item :
  text_or_absent "description" item = false ->
  exists msg, search_item_info item = Raise (AttributeError msg).
Proof.
  intros Hd. destruct item as [| | | | |l|d]; try (by eexists).
  unfold search_item_info.
  cbn [py_get py_get_default text_or_absent mbind outcome_bind] in *.
  unfold py_or.
  destruct (dict_lookup "description" d) as [[| | | |s| |]|]; try discriminate;
    destruct (truthy (default VNone (dict_lookup "title" d))); by eexists.
Qed.

Lemma popular_item_info_object item :
  text_or_absent "description" item = true ->
  popular_item_info item = Return (popular_record item).
Proof.
  destruct item as [| | | | |l|d]; try discriminate. intros Hd.
  unfold popular_item_info, popular_record, first_true, or_none, or_else, stripped.
  cbn [py_get py_get_default field text_or_absent mbind outcome_bind] in *.
  unfold py_or.
  destruct (dict_lookup "description" d) as [[| | | |s| |]|]; try discriminate;
    destruct (truthy (default VNone (dict_lookup "title" d)));
    destruct (truthy (default VNone (dict_lookup "score" d))); reflexivity.
Qed.

Lemma category_info_object category :
  is_object category = true -> category_info category = Return (category_record category).
Proof.
  destruct category as [| | | | |l|d]; try discriminate. intros _.
  unfold category_info, category_record, first_true, or_none.
  cbn [py_get field mbind outcome_bind]. unfold py_or.
  destruct (truthy (default VNone (dict_lookup "count" d))); reflexivity.
Qed.

Lemma item_details_object item :
  text_or_absent "description" item = true ->
  text_or_absent "full_description" item = true ->
  item_details item = Return (details_record item).
Proof.
  destruct item as [| | | | |l|d]; try discriminate. intros Hd Hf.
  unfold item_details, details_record, first_true, or_none, or_else, stripped.
  cbn [py_get py_get_default field text_or_absent mbind outcome_bind] in *.
  unfold py_or.
  destruct (dict_lookup "description" d) as [[| | | |s| |]|]; try discriminate;
    destruct (dict_lookup "full_description" d) as [[| | | |s'| |]|]; try discriminate;
    destruct (truthy (default VNone (dict_lookup "title" d)));
    destruct (truthy (default VNone (dict_lookup "created_at" d)));
    destruct (truthy (default VNone (dict_lookup "author" d))); reflexivity.
Qed.

Lemma ascii_text_is_text k v :
  ascii_text_or_absent k v = true -> text_or_absent k v = true.
Proof.
  destruct v as [| | | | |l|d]; try discriminate.
  cbn [ascii_text_or_absent text_or_absent].
  by destruct (dict_lookup k d) as [[| | | |s| |]|].
Qed.

Lemma all_ascii_text_is_text k l :
  forallb (ascii_text_or_absent k) l = true -> forallb (text_or_absent k) l = true.
Proof.
  induction l as [|x l IH]; [reflexivity|]. cbn [forallb].
  intros [Hx Hl]%andb_prop. by rewrite (ascii_text_is_text _ _ Hx), (IH Hl).
Qed.

(** ** Reshaping a list *)

Lemma for_each_all {A} (f : value -> outcome A) (g : value -> A) (ok : value -> bool) l :
  (forall x, ok x = true -> f x = Return (g x)) ->
  forallb ok l = true -> for_each f l = Return (map g l).
Proof.
  intros Hf. induction l as [|x l IH]; [reflexivity|].
  cbn [forallb for_each map]. intros [Hx Hl]%andb_prop.
  by rewrite (Hf x Hx), (IH Hl).
Qed.

Lemma for_each_one_bad {A} (f : value -> outcome A) (g : value -> A)
    (ok : value -> bool) l :
  (forall x, ok x = true -> f x = Return (g x)) ->
  (forall x, ok x = false -> exists msg, f x = Raise (AttributeError msg)) ->
  forallb ok l = false -> exists msg, for_each f l = Raise (AttributeError msg).
Proof.
  intros Hgood Hf. induction l as [|x l IH]; [discriminate|].
  cbn [forallb for_each]. intros Hbad.
  destruct (ok x) eqn:Hx.
  - destruct (IH Hbad) as [msg Hmsg]. rewrite Hmsg, (Hgood x Hx). by eexists.
  - destruct (Hf x Hx) as [msg Hmsg]. rewrite Hmsg. by eexists.
Qed.

(** ** The tools on a successful answer *)

(** A tool that asks once and reshapes the [results] of the answer. *)
Lemma list_tool_reply w self method endpoint params (f : value -> outcome value)
    pl po response result :
  world_ok w ->
  instance_of w = Return self ->
  answers w self method endpoint params response ->
  json_body response = inr result ->
  fst (try_except
         (get_api_client ≫= λ client,
            invoke client (APIClient._make_request method endpoint params) ≫= λ result0,
              lift (results_of result0 ≫= λ l, for_each f l) ≫= λ items,
                mret (VList items))
         (except_Exception pl po in_list) w)
  = match results_of result ≫= (λ l, for_each f l) with
    | Return items => Return (VList items)
    | Raise e => Return (VList [sentinel (po +:+ str_exn e)])
    end.
Proof.
  intros Hok Hinst [Hup Hst] Hjson. rewrite try_except_Exception.
  first_request Hok Hinst. rewrite Hup, (reply_success _ _ _ Hst Hjson).
  rewrite bind_run. unfold lift.
  destruct (results_of result ≫= λ l, for_each f l); reflexivity.
Qed.

(** X12. [search_items] returns one record for every item of the answer,
    in the order of the answer and however many there are, when every item
    is an object whose description is an ASCII string or absent: the limit
    is applied upstream only. *)
Theorem search_items_returns_every_item w self query limit response result items :
  world_ok w ->
  instance_of w = Return self ->
  answers w self "GET" "/search"
    (Some [("q", VStr query); ("limit", VInt (Z.min limit 50))]) response ->
  json_body response = inr result ->
  results_of result = Return items ->
  forallb (ascii_text_or_absent "description") items = true ->
  fst (search_items query limit w) = Return (VList (map search_record items)).
Proof.
  intros Hok Hinst Hans Hjson Hitems Hgood%all_ascii_text_is_text.
  unfold search_items, search_items_try, APIClient.search.
  rewrite (list_tool_reply w self _ _ _ _ _ _ response result Hok Hinst Hans Hjson).
  rewrite Hitems. cbn [mbind outcome_bind].
  by rewrite (for_each_all _ search_record _ _ search_item_info_object Hgood).
Qed.

Lemma foo_world_answers method endpoint params :
  answers Sample.foo_world Sample.instance method endpoint params
    {| status_code := 200; text := "{...}"; json_body := inr Sample.one_foo |}.
Proof. split; [reflexivity | cbn; lia]. Qed.

Lemma search_items_returns_every_item_witness :
  fst (search_items "tea" 0 Sample.foo_world)
  = Return (VList (map search_record [VDict [("id", VStr "1"); ("name", VStr "Foo")]])).
Proof.
  exact (search_items_returns_every_item Sample.foo_world Sample.instance "tea" 0
           {| status_code := 200; text := "{...}"; json_body := inr Sample.one_foo |}
           Sample.one_foo [VDict [("id", VStr "1"); ("name", VStr "Foo")]]
           (fresh_world_ok _) eq_refl (foo_world_answers _ _ _) eq_refl eq_refl eq_refl).
Defined.

(** X13. One item that is not an object, or whose description is there
    and not a string, and [search_items] returns its error sentinel
    instead of any record: the good items are lost with the bad one. *)
Theorem search_items_all_or_nothing w self query limit response result items :
  world_ok w ->
  instance_of w = Return self ->
  answers w self "GET" "/search"
    (Some [("q", VStr query); ("limit", VInt (Z.min limit 50))]) response ->
  json_body response = inr result ->
  results_of result = Return items ->
  forallb (text_or_absent "description") items = false ->
  exists msg,
    fst (search_items query limit w)
    = Return (VList [sentinel ("Search failed: " +:+ msg)]).
Proof.
  intros Hok Hinst Hans Hjson Hitems Hbad.
  unfold search_items, search_items_try, APIClient.search.
  rewrite (list_tool_reply w self _ _ _ _ _ _ response result Hok Hinst Hans Hjson).
  rewrite Hitems. cbn [mbind outcome_bind].
  destruct (for_each_one_bad _ search_record _ _ search_item_info_object
              search_item_info_other Hbad) as [msg ->].
  by exists msg.
Qed.

Lemma search_items_all_or_nothing_witness :
  exists msg,
    fst (search_items "tea" 5
           (Sample.fresh (fun _ _ => Sample.ok_json
              (VDict [("results",
                       VList [VDict [("id", VStr "1"); ("name", VStr "Foo")];
                              VDict [("id", VStr "2"); ("description", VNone)]])]))))
    = Return (VList [sentinel ("Search failed: " +:+ msg)]).
Proof.
  refine (search_items_all_or_nothing
            (Sample.fresh (fun _ _ => Sample.ok_json
               (VDict [("results",
                        VList [VDict [("id", VStr "1"); ("name", VStr "Foo")];
                               VDict [("id", VStr "2"); ("description", VNone)]])])))
            Sample.instance "tea" 5
            {| status_code := 200; text := "{...}";
               json_body := inr (VDict [("results",
                        VList [VDict [("id", VStr "1"); ("name", VStr "Foo")];
                               VDict [("id", VStr "2"); ("description", VNone)]])]) |}
            _ _ (fresh_world_ok _) eq_refl _ eq_refl eq_refl eq_refl).
  split; [reflexivity | cbn; lia].
Defined.

(** X14. An answer that is an object without [results] is an empty
    result, not a failure: [search_items], [list_categories] and
    [get_popular_items] without a category return the empty list. *)
Theorem no_results_key_is_empty_list w self query limit response result :
  world_ok w ->
  instance_of w = Return self ->
  answers w self "GET" "/search"
    (Some [("q", VStr query); ("limit", VInt (Z.min limit 50))]) response ->
  answers w self "GET" "/categories" None response ->
  answers w self "GET" "/popular" (Some [("limit", VInt (Z.min limit 50))]) response ->
  json_body response = inr result ->
  is_object result = true ->
  field "results" result = None ->
  fst (search_items query limit w) = Return (VList []) /\
  fst (list_categories w) = Return (VList []) /\
  fst (get_popular_items limit None w) = Return (VList []).
Proof.
  intros Hok Hinst Hsearch Hcats Hpop Hjson Hobj Hnone.
  assert (Hres : results_of result = Return []).
  { destruct result; try discriminate. cbn in Hnone. unfold results_of.
    cbn [py_get_default mbind outcome_bind]. by rewrite Hnone. }
  unfold search_items, search_items_try, APIClient.search,
    list_categories, list_categories_try, APIClient.list_categories,
    get_popular_items, get_popular_items_try, popular_items_of,
    APIClient.get_popular_items.
  cbn [given].
  rewrite (list_tool_reply w self _ _ _ _ _ _ response result Hok Hinst Hsearch Hjson).
  rewrite (list_tool_reply w self _ _ _ _ _ _ response result Hok Hinst Hcats Hjson).
  rewrite (list_tool_reply w self _ _ _ _ _ _ response result Hok Hinst Hpop Hjson).
  by rewrite Hres.
Qed.

Lemma no_results_key_is_empty_list_witness :
  fst (list_categories (Sample.fresh (fun _ _ => Sample.ok_json (VDict [("total", VInt 0)]))))
  = Return (VList []).
Proof.
  refine (proj1 (proj2 (no_results_key_is_empty_list
            (Sample.fresh (fun _ _ => Sample.ok_json (VDict [("total", VInt 0)])))
            Sample.instance "tea" 5
            {| status_code := 200; text := "{...}";
               json_body := inr (VDict [("total", VInt 0)]) |}
            (VDict [("total", VInt 0)])
            (fresh_world_ok _) eq_refl _ _ _ eq_refl eq_refl eq_refl)));
    (split; [reflexivity | cbn; lia]).
Defined.

(** X15. [list_categories] returns one record of five fields for every
    object of the answer, in order; nothing in a category object can make
    it fail. *)
Theorem list_categories_returns_every_category w self response result categories :
  world_ok w ->
  instance_of w = Return self ->
  answers w self "GET" "/categories" None response ->
  json_body response = inr result ->
  results_of result = Return categories ->
  forallb is_object categories = true ->
  fst (list_categories w) = Return (VList (map category_record categories)).
Proof.
  intros Hok Hinst Hans Hjson Hcats Hgood.
  unfold list_categories, list_categories_try, APIClient.list_categories.
  rewrite (list_tool_reply w self _ _ _ _ _ _ response result Hok Hinst Hans Hjson).
  rewrite Hcats. cbn [mbind outcome_bind].
  by rewrite (for_each_all _ category_record _ _ category_info_object Hgood).
Qed.

Lemma list_categories_returns_every_category_witness :
  fst (list_categories Sample.null_name_world)
  = Return (VList (map category_record [VDict [("id", VStr "7"); ("name", VNone)]])).
Proof.
  refine (list_categories_returns_every_category Sample.null_name_world Sample.instance
            {| status_code := 200; text := "{...}"; json_body := inr Sample.null_name |}
            Sample.null_name [VDict [("id", VStr "7"); ("name", VNone)]]
            (fresh_world_ok _) eq_refl _ eq_refl eq_refl eq_refl).
  split; [reflexivity | cbn; lia].
Defined.

(** X16. For an id that makes a request [httpx] does not refuse,
    [get_item_details] returns the record of ten fields made from the
    answer when that is an object whose description and full description
    are ASCII strings or absent: both are stripped, the title falls back
    to the name, the date to [date], the author to [creator], and where
    the first of the two is false in the sense of Python, empty string and
    zero included. *)
Theorem get_item_details_record w self item_id response item :
  world_ok w ->
  instance_of w = Return self ->
  sendable (APIClient.outgoing self "GET" ("/items/" +:+ item_id) None) = true ->
  answers w self "GET" ("/items/" +:+ item_id) None response ->
  json_body response = inr item ->
  ascii_text_or_absent "description" item = true ->
  ascii_text_or_absent "full_description" item = true ->
  fst (get_item_details item_id w) = Return (details_record item).
Proof.
  intros Hok Hinst _ [Hup Hst] Hjson Hd%ascii_text_is_text Hf%ascii_text_is_text.
  unfold get_item_details. rewrite try_except_Exception.
  unfold get_item_details_try, APIClient.get_details.
  first_request Hok Hinst. rewrite Hup, (reply_success _ _ _ Hst Hjson).
  unfold lift. by rewrite (item_details_object _ Hd Hf).
Qed.

Lemma get_item_details_record_witness :
  fst (get_item_details "9"
         (Sample.fresh (fun _ _ => Sample.ok_json
            (VDict [("id", VStr "9"); ("title", VStr EmptyString); ("name", VStr "Nine")]))))
  = Return (details_record
              (VDict [("id", VStr "9"); ("title", VStr EmptyString); ("name", VStr "Nine")])).
Proof.
  refine (get_item_details_record
            (Sample.fresh (fun _ _ => Sample.ok_json
               (VDict [("id", VStr "9"); ("title", VStr EmptyString);
                       ("name", VStr "Nine")])))
            Sample.instance "9"
            {| status_code := 200; text := "{...}";
               json_body := inr (VDict [("id", VStr "9"); ("title", VStr EmptyString);
                                        ("name", VStr "Nine")]) |}
            _ (fresh_world_ok _) eq_refl eq_refl _ eq_refl eq_refl eq_refl).
  split; [reflexivity | cbn; lia].
Defined.

Example empty_title_falls_back_to_name :
  field "title"
    (details_record
       (VDict [("id", VStr "9"); ("title", VStr EmptyString); ("name", VStr "Nine")]))
  = Some (VStr "Nine").
Proof. reflexivity. Qed.

(** ** The requests of [get_popular_items] *)

Lemma make_request_outbox self net method endpoint params :
  consistent self net ->
  outbox (net_after (APIClient._make_request method endpoint params) self net)
  = outbox net ++ [APIClient.outgoing self method endpoint params].
Proof.
  intros Hcons. destruct (get_client_config self net) as (_ & _ & Hout & _).
  unfold net_after in *. rewrite make_request_run by done.
  cbn zeta. cbn [snd sent outbox]. by rewrite Hout.
Qed.

Lemma outgoing_same_settings self self' method endpoint params :
  base_url self' = base_url self -> api_key self' = api_key self ->
  APIClient.outgoing self' method endpoint params
  = APIClient.outgoing self method endpoint params.
Proof. unfold APIClient.outgoing. by intros -> ->. Qed.

Lemma try_except_network (body : M World value) pl po wrap w :
  network (snd (try_except body (except_Exception pl po wrap) w))
  = network (snd (body w)).
Proof. rewrite try_except_Exception. by destruct (body w) as [[v|e] w1]. Qed.

Lemma popular_items_of_network result w :
  network (snd (popular_items_of result w)) = network w.
Proof.
  unfold popular_items_of. rewrite bind_run. unfold lift.
  by destruct (results_of result ≫= λ l, for_each popular_item_info l).
Qed.

(** X17. Without a category, and with the empty string for one,
    [get_popular_items] issues one request, for the popular items with the
    clamped limit, and never asks for the categories. *)
Theorem popular_without_category_asks_once w self limit category :
  world_ok w ->
  instance_of w = Return self ->
  given category = None ->
  issued (network w) (network (snd (get_popular_items limit category w)))
  = [APIClient.outgoing self "GET" "/popular"
       (Some [("limit", VInt (Z.min limit 50))])].
Proof.
  intros Hok Hinst Hgiven. unfold get_popular_items. rewrite try_except_network.
  unfold get_popular_items_try. rewrite Hgiven. cbv beta iota.
  unfold APIClient.get_popular_items. first_request Hok Hinst.
  assert (Hnet : forall r : outcome value,
    network (snd (match r with
                  | Return a => popular_items_of a
                      (after_method (APIClient._make_request "GET" "/popular"
                         (Some [("limit", VInt (Z.min limit 50))])) self (with_client self w))
                  | Raise e => (Raise e,
                      after_method (APIClient._make_request "GET" "/popular"
                         (Some [("limit", VInt (Z.min limit 50))])) self (with_client self w))
                  end))
    = net_after (APIClient._make_request "GET" "/popular"
                   (Some [("limit", VInt (Z.min limit 50))])) self (network w)).
  { intros [a|e]; [by rewrite popular_items_of_network | reflexivity]. }
  rewrite Hnet. apply make_request_issued. by apply instance_consistent.
Qed.

Lemma popular_without_category_asks_once_witness :
  issued (network Sample.foo_world)
    (network (snd (get_popular_items 80 (Some EmptyString) Sample.foo_world)))
  = [APIClient.outgoing Sample.instance "GET" "/popular" (Some [("limit", VInt 50)])].
Proof.
  exact (popular_without_category_asks_once Sample.foo_world Sample.instance 80
           (Some EmptyString) (fresh_world_ok _) eq_refl eq_refl).
Defined.

Lemma find_category_id_first_match category before cat rest name :
  names_differ category before ->
  py_get_default cat "name" (VStr EmptyString) = Return (VStr name) ->
  lower name = lower category ->
  find_category_id category (before ++ cat :: rest) = Return (or_none "id" cat).
Proof.
  intros Hbefore Hname Hmatch.
  induction Hbefore as [|c0 before (n0 & Hn0 & _ & Hneq) _ IH];
    cbn [app find_category_id].
  - rewrite Hname. cbn [mbind outcome_bind py_lower]. rewrite Hmatch, String.eqb_refl.
    destruct cat; try discriminate. reflexivity.
  - rewrite Hn0. cbn [mbind outcome_bind py_lower].
    by rewrite (proj2 (String.eqb_neq _ _) Hneq).
Qed.

(** The state and the requests after the category listing was asked for
    and the category looked up in it. *)
Lemma category_lookup_run w self limit c response listing cats category_id :
  world_ok w ->
  instance_of w = Return self ->
  c <> EmptyString ->
  answers w self "GET" "/categories" None response ->
  json_body response = inr listing ->
  results_of listing = Return cats ->
  find_category_id c cats = Return category_id ->
  get_popular_items_try limit (Some c) w =
  let w1 := after_method (APIClient._make_request "GET" "/categories" None) self
              (with_client self w) in
  if truthy category_id
  then (invoke TheClient (APIClient.get_items_by_category category_id limit)
          ≫= popular_items_of) w1
  else (Return (category_not_found c), w1).
Proof.
  intros Hok Hinst Hc [Hup Hst] Hjson Hcats Hfind.
  unfold get_popular_items_try. rewrite (given_nonempty _ Hc). cbv beta iota.
  unfold APIClient.list_categories. first_request Hok Hinst.
  rewrite Hup, (reply_success _ _ _ Hst Hjson).
  rewrite bind_run. unfold lift. cbn [mbind outcome_bind]. rewrite Hcats.
  cbn [mbind outcome_bind]. rewrite Hfind. cbn zeta.
  destruct (truthy category_id); reflexivity.
Qed.

(** X18. For ASCII text: with a category, [get_popular_items] takes the
    first category of the listing whose name is the category's, letter
    case aside, without looking at the ones after it; when its id is true
    in the sense of Python, and makes a request [httpx] does not refuse,
    the tool issues two requests, the listing and then the items of that
    category, under the id as [str] prints it and with the clamped
    limit. *)
Theorem popular_by_category_asks_twice
    w self limit c response listing before cat rest name :
  world_ok w ->
  instance_of w = Return self ->
  c <> EmptyString ->
  ascii_only c = true ->
  answers w self "GET" "/categories" None response ->
  json_body response = inr listing ->
  results_of listing = Return (before ++ cat :: rest) ->
  names_differ c before ->
  py_get_default cat "name" (VStr EmptyString) = Return (VStr name) ->
  ascii_only name = true ->
  lower name = lower c ->
  truthy (or_none "id" cat) = true ->
  sendable (APIClient.outgoing self "GET" "/categories" None) = true ->
  sendable (APIClient.outgoing self "GET"
              ("/categories/" +:+ str (or_none "id" cat) +:+ "/items")
              (Some [("limit", VInt (Z.min limit 50))])) = true ->
  issued (network w) (network (snd (get_popular_items limit (Some c) w)))
  = [APIClient.outgoing self "GET" "/categories" None;
     APIClient.outgoing self "GET"
       ("/categories/" +:+ str (or_none "id" cat) +:+ "/items")
       (Some [("limit", VInt (Z.min limit 50))])].
Proof.
  intros Hok Hinst Hc _ Hans Hjson Hcats Hbefore Hname _ Hmatch Hid _ _.
  pose proof (instance_consistent _ _ Hok Hinst) as Hcons.
  unfold get_popular_items. rewrite try_except_network.
  rewrite (category_lookup_run w self limit c response listing _ _
             Hok Hinst Hc Hans Hjson Hcats
             (find_category_id_first_match _ _ _ _ _ Hbefore Hname Hmatch)).
  cbn zeta. rewrite Hid. rewrite bind_run.
  unfold APIClient.get_items_by_category.
  set (m1 := APIClient._make_request "GET" "/categories" None).
  set (path := "/categories/" +:+ str (or_none "id" cat) +:+ "/items").
  set (params := Some [("limit", VInt (Z.min limit 50))]).
  pose proof (make_request_consistent self (network w) "GET" "/categories" None Hcons)
    as Hcons1. fold m1 in Hcons1.
  rewrite (invoke_request (after_method m1 self (with_client self w))
             (self_after m1 self (network w)) "GET" path params eq_refl Hcons1).
  set (w2 := after_method (APIClient._make_request "GET" path params)
               (self_after m1 self (network w))
               (after_method m1 self (with_client self w))).
  assert (Hnet : forall r : outcome value,
    network (snd (match r with
                  | Return a => popular_items_of a w2
                  | Raise e => (Raise e, w2)
                  end)) = network w2).
  { intros [a|e]; [by rewrite popular_items_of_network | reflexivity]. }
  rewrite Hnet. unfold w2. cbn [after_method network with_client].
  unfold issued. rewrite make_request_outbox by exact Hcons1.
  subst m1. rewrite make_request_outbox by exact Hcons.
  rewrite <- app_assoc, drop_app_length. cbn [app].
  destruct (make_request_keeps_settings "GET" "/categories" None self (network w))
    as (Hb & Hk & _).
  by rewrite (outgoing_same_settings self _ _ _ _ Hb Hk).
Qed.

Lemma food_world_answers method endpoint params :
  answers Sample.food_world Sample.instance method endpoint params
    {| status_code := 200; text := "{...}"; json_body := inr Sample.food_only |}.
Proof. split; [reflexivity | cbn; lia]. Qed.

Lemma popular_by_category_asks_twice_witness :
  issued (network Sample.food_world)
    (network (snd (get_popular_items 5 (Some "FOOD") Sample.food_world)))
  = [APIClient.outgoing Sample.instance "GET" "/categories" None;
     APIClient.outgoing Sample.instance "GET" "/categories/7/items"
       (Some [("limit", VInt 5)])].
Proof.
  refine (popular_by_category_asks_twice Sample.food_world Sample.instance 5 "FOOD"
            {| status_code := 200; text := "{...}"; json_body := inr Sample.food_only |}
            Sample.food_only [] (VDict [("id", VStr "7"); ("name", VStr "Food")]) []
            "Food" (fresh_world_ok _) eq_refl _ eq_refl (food_world_answers _ _ _)
            eq_refl eq_refl _ eq_refl eq_refl eq_refl eq_refl eq_refl eq_refl).
  - discriminate.
  - constructor.
Defined.

(** X19. For ASCII text: a category that is in the listing but whose id is
    absent, null, zero, empty or false is reported as not found, like one
    that is not in the listing, and its items are not asked for. *)
Theorem category_without_true_id_is_not_found
    w self limit c response listing before cat rest name :
  world_ok w ->
  instance_of w = Return self ->
  c <> EmptyString ->
  ascii_only c = true ->
  answers w self "GET" "/categories" None response ->
  json_body response = inr listing ->
  results_of listing = Return (before ++ cat :: rest) ->
  names_differ c before ->
  py_get_default cat "name" (VStr EmptyString) = Return (VStr name) ->
  ascii_only name = true ->
  lower name = lower c ->
  truthy (or_none "id" cat) = false ->
  fst (get_popular_items limit (Some c) w) = Return (category_not_found c) /\
  issued (network w) (network (snd (get_popular_items limit (Some c) w)))
  = [APIClient.outgoing self "GET" "/categories" None].
Proof.
  intros Hok Hinst Hc _ Hans Hjson Hcats Hbefore Hname _ Hmatch Hid.
  pose proof (instance_consistent _ _ Hok Hinst) as Hcons.
  unfold get_popular_items. rewrite try_except_network, try_except_Exception.
  rewrite (category_lookup_run w self limit c response listing _ _
             Hok Hinst Hc Hans Hjson Hcats
             (find_category_id_first_match _ _ _ _ _ Hbefore Hname Hmatch)).
  cbn zeta. rewrite Hid. cbn [fst snd after_method network with_client].
  split; [reflexivity|]. by apply make_request_issued.
Qed.

Lemma category_without_true_id_is_not_found_witness :
  fst (get_popular_items 5 (Some "food")
         (Sample.fresh (fun _ _ => Sample.ok_json
            (VDict [("results", VList [VDict [("id", VInt 0); ("name", VStr "Food")]])]))))
  = Return (category_not_found "food").
Proof.
  refine (proj1 (category_without_true_id_is_not_found
            (Sample.fresh (fun _ _ => Sample.ok_json
               (VDict [("results", VList [VDict [("id", VInt 0); ("name", VStr "Food")]])])))
            Sample.instance 5 "food"
            {| status_code := 200; text := "{...}";
               json_body := inr (VDict [("results",
                        VList [VDict [("id", VInt 0); ("name", VStr "Food")]])]) |}
            _ [] (VDict [("id", VInt 0); ("name", VStr "Food")]) []
            "Food" (fresh_world_ok _) eq_refl _ eq_refl _
            eq_refl eq_refl _ eq_refl eq_refl eq_refl eq_refl)).
  - discriminate.
  - split; [reflexivity | cbn; lia].
  - constructor.
Defined.

(** ** The exceptions behind the sentinels *)

Lemma no_transport_bind {A B} (o : outcome A) (f : A -> outcome B) :
  no_transport_error o -> (forall a, no_transport_error (f a)) ->
  no_transport_error (o ≫= f).
Proof. destruct o as [a|e]; cbn; auto. Qed.

Lemma py_get_no_transport v k : no_transport_error (py_get v k).
Proof. by destruct v. Qed.

Lemma py_get_default_no_transport v k dflt : no_transport_error (py_get_default v k dflt).
Proof. by destruct v. Qed.

Lemma py_strip_no_transport v : no_transport_error (py_strip v).
Proof. by destruct v. Qed.

Lemma py_lower_no_transport v : no_transport_error (py_lower v).
Proof. by destruct v. Qed.

Lemma py_iter_no_transport v : no_transport_error (py_iter v).
Proof. by destruct v. Qed.

Lemma py_or_no_transport a o : no_transport_error o -> no_transport_error (py_or a o).
Proof. unfold py_or. by destruct (truthy a). Qed.

Lemma mret_no_transport {A} (a : A) : no_transport_error (mret a).
Proof. exact I. Qed.

Create HintDb transport.

#[local] Hint Resolve py_get_no_transport py_get_default_no_transport
  py_strip_no_transport py_lower_no_transport py_iter_no_transport py_or_no_transport
  mret_no_transport : transport.

Ltac no_transport_steps :=
  repeat first
    [ solve [eauto with transport]
    | simple apply no_transport_bind
    | intro ].

Lemma for_each_no_transport {A} (f : value -> outcome A) l :
  (forall x, no_transport_error (f x)) -> no_transport_error (for_each f l).
Proof.
  intros Hf. induction l as [|x l IH]; [exact I|]. cbn [for_each].
  specialize (Hf x). destruct (f x) as [a|e]; [|exact Hf].
  by destruct (for_each f l).
Qed.

Lemma search_item_info_no_transport item : no_transport_error (search_item_info item).
Proof. unfold search_item_info. no_transport_steps. Qed.

Lemma item_details_no_transport item : no_transport_error (item_details item).
Proof. unfold item_details. no_transport_steps. Qed.

Lemma category_info_no_transport category : no_transport_error (category_info category).
Proof. unfold category_info. no_transport_steps. Qed.

Lemma popular_item_info_no_transport item : no_transport_error (popular_item_info item).
Proof. unfold popular_item_info. no_transport_steps. Qed.

Lemma results_of_no_transport result : no_transport_error (results_of result).
Proof. unfold results_of. no_transport_steps. Qed.

Lemma find_category_id_no_transport category cats :
  no_transport_error (find_category_id category cats).
Proof.
  induction cats as [|cat cats IH]; [exact I|]. cbn [find_category_id].
  assert (H : no_transport_error
                (n ← py_get_default cat "name" (VStr EmptyString); py_lower n))
    by no_transport_steps.
  destruct (n ← py_get_default cat "name" (VStr EmptyString); py_lower n) as [name|e];
    [|exact H].
  destruct (String.eqb name (lower category)); [apply py_get_no_transport | exact IH].
Qed.

#[local] Hint Resolve for_each_no_transport search_item_info_no_transport
  item_details_no_transport category_info_no_transport popular_item_info_no_transport
  results_of_no_transport find_category_id_no_transport : transport.

Lemma hides_mret {A} (a : A) : hides_transport_errors (mret a : M World A).
Proof. by intros w. Qed.

Lemma hides_lift {A} (o : outcome A) :
  no_transport_error o -> hides_transport_errors (lift o : M World A).
Proof. by intros Ho w. Qed.

Lemma hides_invoke client method endpoint params :
  hides_transport_errors (invoke client (APIClient._make_request method endpoint params)).
Proof.
  intros w. unfold invoke. destruct (global_client w) as [c|]; [|exact I].
  pose proof (make_request_no_transport c (network w) method endpoint params) as H.
  by destruct (APIClient._make_request method endpoint params (c, network w)).
Qed.

Lemma hides_get_api_client : hides_transport_errors get_api_client.
Proof.
  intros w. rewrite get_api_client_run.
  destruct (global_client w) as [c|]; [exact I|].
  unfold APIClient.__init__, Settings.api_key.
  destruct (environ w !! "API_KEY") as [key|]; [|exact I].
  by destruct (String.eqb key EmptyString).
Qed.

Lemma hides_bind {A B} (m : M World A) (f : A -> M World B) :
  hides_transport_errors m -> (forall a, hides_transport_errors (f a)) ->
  hides_transport_errors (m ≫= f).
Proof.
  intros Hm Hf w. rewrite bind_run. specialize (Hm w).
  destruct (m w) as [[a|e] w1]; cbn [fst snd] in *; [by apply Hf | done].
Qed.

#[local] Hint Resolve hides_mret hides_lift hides_invoke hides_get_api_client : transport.

Ltac hides_steps :=
  repeat first
    [ solve [eauto with transport]
    | simple apply hides_lift
    | simple apply hides_bind
    | simple apply no_transport_bind
    | intro ].

(** X20. What the [try] block of a tool raises, and so the message its
    sentinel carries, is never an [HTTPStatusError] or a [RequestError] of
    the transport library: each has been turned into the domain error
    before it reaches the tool. *)
Theorem tools_never_see_transport_errors query limit item_id category :
  hides_transport_errors (search_items_try query limit) /\
  hides_transport_errors (get_item_details_try item_id) /\
  hides_transport_errors list_categories_try /\
  hides_transport_errors (get_popular_items_try limit category).
Proof.
  split; [|split; [|split]].
  - unfold search_items_try, APIClient.search. hides_steps.
  - unfold get_item_details_try, APIClient.get_details. hides_steps.
  - unfold list_categories_try, APIClient.list_categories. hides_steps.
  - unfold get_popular_items_try, popular_items_of, APIClient.list_categories,
      APIClient.get_popular_items, APIClient.get_items_by_category.
    apply hides_bind; [apply hides_get_api_client|]. intros client.
    destruct (given category) as [c|]; [|hides_steps].
    apply hides_bind; [apply hides_invoke|]. intros listing.
    apply hides_bind; [hides_steps|]. intros category_id.
    destruct (truthy category_id); hides_steps.
Qed.

Example transport_failure_reaches_tool_as_domain_error :
  fst (search_items_try "tea" 5 (Sample.fresh (fun _ _ => inl "timed out")))
  = Raise (APIError "Request failed: timed out").
Proof. vm_compute. reflexivity. Qed.

(** * The integer settings *)

Lemma digit_facts c :
  is_digit c = true ->
  is_space c = false /\ Ascii.eqb c "_"%char = false /\
  Ascii.eqb c "-"%char = false /\ Ascii.eqb c "+"%char = false.
Proof.
  destruct c as [[] [] [] [] [] [] [] []]; try discriminate; by intros _.
Qed.

Lemma string_of_uint_digits u : all_digits (NilEmpty.string_of_uint u) = true.
Proof. induction u; cbn [NilEmpty.string_of_uint all_digits]; by rewrite ?IHu. Qed.

Lemma rstrip_digits s : all_digits s = true -> rstrip_with is_space s = s.
Proof.
  induction s as [|c r IH]; [reflexivity|].
  cbn [all_digits rstrip_with]. intros [Hc Hr]%andb_prop. rewrite (IH Hr).
  destruct (digit_facts c Hc) as (-> & _). by destruct r.
Qed.

Lemma strip_digits s : all_digits s = true -> strip s = s.
Proof.
  intros H. unfold strip. destruct s as [|c r]; [reflexivity|].
  pose proof H as [Hc _]%andb_prop. cbn [lstrip_with].
  destruct (digit_facts c Hc) as (-> & _). by apply rstrip_digits.
Qed.

Lemma strip_minus_digits s :
  all_digits s = true -> s <> EmptyString ->
  strip (String "-"%char s) = String "-"%char s.
Proof.
  intros H Hne. unfold strip.
  change (lstrip_with is_space (String "-"%char s)) with (String "-"%char s).
  cbn [rstrip_with]. rewrite (rstrip_digits s H). by destruct s.
Qed.

Lemma drop_underscores_digits after_digit s :
  all_digits s = true -> s <> EmptyString \/ after_digit = true ->
  PyInt.drop_underscores after_digit s = Some s.
Proof.
  revert after_digit. induction s as [|c r IH]; intros after_digit H Hne.
  - destruct Hne as [Hne | ->]; [done | reflexivity].
  - cbn [all_digits] in H. apply andb_prop in H as [Hc Hr].
    cbn [PyInt.drop_underscores].
    destruct (digit_facts c Hc) as (_ & -> & _).
    by rewrite (IH true Hr (or_intror eq_refl)).
Qed.

Lemma split_sign_digits s :
  all_digits s = true -> PyInt.split_sign s = (false, s).
Proof.
  destruct s as [|c r]; [reflexivity|]. intros [Hc _]%andb_prop.
  cbn [PyInt.split_sign]. by destruct (digit_facts c Hc) as (_ & _ & -> & ->).
Qed.

(** [int] on the digits of a number. *)
Lemma int_digits (negative : bool) u :
  u <> Decimal.Nil ->
  (String.length (NilEmpty.string_of_uint u) <= PyInt.max_str_digits)%nat ->
  PyInt.int ((if negative then String "-"%char else id) (NilEmpty.string_of_uint u))
  = Return (if negative then - Z.of_uint u else Z.of_uint u).
Proof.
  intros Hu Hlen.
  pose proof (string_of_uint_digits u) as Hdigits.
  assert (Hne : NilEmpty.string_of_uint u <> EmptyString) by (by destruct u).
  unfold PyInt.int.
  assert (Hsplit : PyInt.split_sign
            (strip ((if negative then String "-"%char else id) (NilEmpty.string_of_uint u)))
          = (negative, NilEmpty.string_of_uint u)).
  { destruct negative; cbn [id].
    - by rewrite (strip_minus_digits _ Hdigits Hne).
    - by rewrite (strip_digits _ Hdigits), (split_sign_digits _ Hdigits). }
  rewrite Hsplit, (drop_underscores_digits false _ Hdigits (or_introl Hne)).
  assert (Hback : NilZero.uint_of_string (NilEmpty.string_of_uint u) = Some u).
  { unfold NilZero.uint_of_string.
    destruct (NilEmpty.string_of_uint u) eqn:Hs; [done|]. rewrite <- Hs.
    apply NilEmpty.usu. }
  by rewrite Hback, (proj2 (Nat.ltb_ge _ _) Hlen).
Qed.

Lemma string_of_uint_nonnil u :
  u <> Decimal.Nil -> NilZero.string_of_uint u = NilEmpty.string_of_uint u.
Proof. by destruct u. Qed.

Lemma int_str_of_int n :
  (String.length (str_of_int (Z.abs n)) <= 4300)%nat ->
  PyInt.int (str_of_int n) = Return n.
Proof.
  intros Hlen. destruct n as [|p|p]; [reflexivity| |];
    pose proof (Unsigned.to_uint_nonnil p) as Hnil;
    change (String.length (NilZero.string_of_uint (Pos.to_uint p)) <= 4300)%nat in Hlen;
    unfold str_of_int; cbn [Z.to_int NilZero.string_of_int];
    rewrite (string_of_uint_nonnil _ Hnil) in *.
  - etransitivity; [exact (int_digits false _ Hnil Hlen)|].
    f_equal. exact (DecimalZ.of_to (Z.pos p)).
  - etransitivity; [exact (int_digits true _ Hnil Hlen)|].
    f_equal. exact (DecimalZ.of_to (Z.neg p)).
Qed.

(** X21. A number written in decimal, of no more than 4300 digits, is
    what [max_results] and [cache_ttl] make of [MAX_RESULTS] and
    [CACHE_TTL] set to it. *)
Theorem integer_settings_read_back (env : gmap string string) n :
  (String.length (str_of_int (Z.abs n)) <= 4300)%nat ->
  NumericSettings.max_results (<["MAX_RESULTS" := str_of_int n]> env) = Return n /\
  NumericSettings.cache_ttl (<["CACHE_TTL" := str_of_int n]> env) = Return n.
Proof.
  intros Hlen. unfold NumericSettings.max_results, NumericSettings.cache_ttl.
  rewrite !lookup_insert_eq. cbn -[PyInt.int str_of_int].
  by rewrite (int_str_of_int n Hlen).
Qed.

Lemma integer_settings_read_back_witness :
  NumericSettings.max_results (<["MAX_RESULTS" := str_of_int (-25)]> ∅) = Return (-25).
Proof.
  exact (proj1 (integer_settings_read_back ∅ (-25) ltac:(vm_compute; lia))).
Defined.

(** X22. The defaults, 50 and 300, stand in only for a variable that is
    not set: one that is set to nothing, or to white space, raises
    [ValueError]. *)
Theorem integer_settings_unset_or_blank (env : gmap string string) v :
  (env !! "MAX_RESULTS" = None -> NumericSettings.max_results env = Return 50) /\
  (env !! "CACHE_TTL" = None -> NumericSettings.cache_ttl env = Return 300) /\
  (strip v = EmptyString ->
   (env !! "MAX_RESULTS" = Some v ->
      NumericSettings.max_results env = Raise (PyInt.invalid_literal v)) /\
   (env !! "CACHE_TTL" = Some v ->
      NumericSettings.cache_ttl env = Raise (PyInt.invalid_literal v))).
Proof.
  unfold NumericSettings.max_results, NumericSettings.cache_ttl.
  split; [by intros ->|]. split; [by intros ->|].
  intros Hblank. unfold PyInt.int.
  split; intros ->; cbn -[strip PyInt.invalid_literal]; by rewrite Hblank.
Qed.

Lemma integer_settings_unset_or_blank_witness :
  NumericSettings.max_results ∅ = Return 50 /\
  NumericSettings.cache_ttl (<["CACHE_TTL" := "  "]> ∅)
  = Raise (ValueError "invalid literal for int() with base 10: '  '").
Proof.
  destruct (integer_settings_unset_or_blank ∅ "  ") as (Hunset & _ & _).
  destruct (integer_settings_unset_or_blank (<["CACHE_TTL" := "  "]> ∅) "  ")
    as (_ & _ & Hblank).
  split; [exact (Hunset eq_refl)|].
  exact (proj2 (Hblank eq_refl) eq_refl).
Defined.

(** * The five operations of the client *)

(** X23. Each operation of the client, when the request it builds is one
    [httpx] does not refuse, issues one [GET] request: for [search] to
    [/search] with the query, the clamped limit and the key; for
    [get_details] to [/items/] and the id as it is given, with the key
    alone; for [list_categories] to [/categories]; for
    [get_popular_items] to [/popular]; for [get_items_by_category] to
    [/categories/], the id and [/items]. *)
Theorem requests_of_the_operations self net query limit item_id category_id :
  consistent self net ->
  sendable (APIClient.outgoing self "GET" "/search"
              (Some [("q", VStr query); ("limit", VInt (Z.min limit 50))])) = true ->
  sendable (APIClient.outgoing self "GET" ("/items/" +:+ item_id) None) = true ->
  sendable (APIClient.outgoing self "GET" "/categories" None) = true ->
  sendable (APIClient.outgoing self "GET" "/popular"
              (Some [("limit", VInt (Z.min limit 50))])) = true ->
  sendable (APIClient.outgoing self "GET"
              ("/categories/" +:+ str category_id +:+ "/items")
              (Some [("limit", VInt (Z.min limit 50))])) = true ->
  issued net (net_after (APIClient.search query limit) self net)
  = [{| req_method := "GET"; req_url := base_url self +:+ "/search";
        req_params := [("q", VStr query); ("limit", VInt (Z.min limit 50));
                       ("api_key", VStr (api_key self))] |}] /\
  issued net (net_after (APIClient.get_details item_id) self net)
  = [{| req_method := "GET"; req_url := base_url self +:+ "/items/" +:+ item_id;
        req_params := [("api_key", VStr (api_key self))] |}] /\
  issued net (net_after APIClient.list_categories self net)
  = [{| req_method := "GET"; req_url := base_url self +:+ "/categories";
        req_params := [("api_key", VStr (api_key self))] |}] /\
  issued net (net_after (APIClient.get_popular_items limit) self net)
  = [{| req_method := "GET"; req_url := base_url self +:+ "/popular";
        req_params := [("limit", VInt (Z.min limit 50));
                       ("api_key", VStr (api_key self))] |}] /\
  issued net (net_after (APIClient.get_items_by_category category_id limit) self net)
  = [{| req_method := "GET";
        req_url := base_url self +:+ "/categories/" +:+ str category_id +:+ "/items";
        req_params := [("limit", VInt (Z.min limit 50));
                       ("api_key", VStr (api_key self))] |}].
Proof.
  intros Hcons _ _ _ _ _.
  unfold APIClient.search, APIClient.get_details, APIClient.list_categories,
    APIClient.get_popular_items, APIClient.get_items_by_category.
  rewrite !make_request_issued by exact Hcons.
  repeat split.
Qed.

Lemma requests_of_the_operations_witness :
  issued (Sample.net (fun _ _ => inl "down"))
    (net_after (APIClient.get_details "a/b") Sample.instance
       (Sample.net (fun _ _ => inl "down")))
  = [{| req_method := "GET"; req_url := "https://api.example.com/v1/items/a/b";
        req_params := [("api_key", VStr "secret")] |}].
Proof.
  exact (proj1 (proj2 (requests_of_the_operations Sample.instance
                         (Sample.net (fun _ _ => inl "down")) "tea" 5 "a/b" VNone
                         (sample_consistent _) eq_refl eq_refl eq_refl eq_refl eq_refl))).
Defined.
